(** * OpenFilter observability: registry, allowlist and side-channel frames

    A shallow embedding of

    - [openfilter/observability/registry.py]
      ([generate_histogram_buckets], [TelemetryRegistry]),
    - [openfilter/observability/config.py] ([read_allowlist]),

    together with models, taken from the specification, of the parts of the
    filter worker that the repository's tests exercise ([_filter] and
    [_metrics] frames, [Filter.normalize_config]).

    Conventions of the embedding:

    - Python [float]s and [int]s used as metric values are real numbers
      ([R]); [math.log] and [math.exp] are [ln] and [exp], so rounding and
      overflow of IEEE doubles (also in the division of a float by a large
      [int]) are idealised away.  What is stated of
      [generate_histogram_buckets] is chosen not to depend on how doubles
      round: its [ValueError]s, the number of boundaries of a list it
      returns, and which call produces the boundaries a meter receives.
    - Python [str] is [string], one [ascii] per character: the strings
      covered are those whose characters have code points below 256, and
      [lower], [isspace] and [strip] are Python's on that range.
    - Code that can raise returns an [outcome] whose exceptions are
      instances of [Exception], the ones an [except Exception] catches.
      Module [Interrupts] embeds [record] once more with the exceptions
      outside [Exception] ([KeyboardInterrupt] and the like), which such a
      handler lets through.
    - Calls on objects the code does not own (meters, instruments, metric
      value functions, the logger) are recorded in an event trace; the
      interpreter's [int] on strings, the file system and the YAML parser
      are parameters of a [World]. *)

From Stdlib Require Import Reals Lra Lia ZArith String Ascii List.
From stdpp Require Import gmap strings list fin_maps.
Import ListNotations.

Local Open Scope string_scope.
Local Open Scope Z_scope.
Local Open Scope list_scope.

(** ** Python helpers *)

Module Py.

(** The exception classes the modelled code raises or meets. *)
Inductive exn : Type :=
| ValueError
| TypeError
| AttributeError
| OSError
| YAMLError
| RuntimeError (tag : string).

(** Result of running code that may raise. *)
Inductive outcome (A : Type) : Type :=
| Normal (a : A)
| Raised (e : exn).
Arguments Normal {A} a.
Arguments Raised {A} e.

(** [c.lower()] for one character with a code point below 256: the letters
    A to Z, and the accented capitals 192 to 222 except the multiplication
    sign 215. *)
Definition ascii_lower (c : ascii) : ascii :=
  let n := nat_of_ascii c in
  if ((Nat.leb 65 n && Nat.leb n 90)
      || (Nat.leb 192 n && Nat.leb n 222 && negb (Nat.eqb n 215)))%bool
  then ascii_of_nat (n + 32) else c.

(** [s.lower()] *)
Fixpoint lower (s : string) : string :=
  match s with
  | EmptyString => EmptyString
  | String c s' => String (ascii_lower c) (lower s')
  end.

(** [s.startswith(p)] *)
Fixpoint startswith (p s : string) : bool :=
  match p, s with
  | EmptyString, _ => true
  | String _ _, EmptyString => false
  | String a p', String b s' => (Ascii.eqb a b && startswith p' s')%bool
  end.

(** [sub in s] for strings *)
Fixpoint str_in (sub s : string) : bool :=
  (startswith sub s ||
   match s with
   | EmptyString => false
   | String _ s' => str_in sub s'
   end)%bool.

(** [c.isspace()] for a code point below 256: tab, newline, vertical tab,
    form feed, carriage return, the four separators 28..31, the space, next
    line (133) and the no-break space (160). *)
Definition isspace (c : ascii) : bool :=
  let n := nat_of_ascii c in
  ((Nat.leb 9 n && Nat.leb n 13) || (Nat.leb 28 n && Nat.leb n 32)
   || Nat.eqb n 133 || Nat.eqb n 160)%bool.

(** [s.lstrip()] *)
Fixpoint lstrip (s : string) : string :=
  match s with
  | EmptyString => EmptyString
  | String c s' => if isspace c then lstrip s' else s
  end.

(** [s.rstrip()] *)
Fixpoint rstrip (s : string) : string :=
  match s with
  | EmptyString => EmptyString
  | String c s' =>
      match rstrip s' with
      | EmptyString => if isspace c then EmptyString else String c EmptyString
      | r => String c r
      end
  end.

(** [s.strip()] *)
Definition strip (s : string) : string := rstrip (lstrip s).

(** [s.split(sep)] for a one-character separator: always at least one
    piece, empty pieces are kept. *)
Fixpoint split (sep : ascii) (s : string) : list string :=
  match s with
  | EmptyString => [EmptyString]
  | String c s' =>
      if Ascii.eqb c sep then EmptyString :: split sep s'
      else match split sep s' with
           | [] => [String c EmptyString]
           | p :: ps => String c p :: ps
           end
  end.

(** Truth value of a [str]: non-empty. *)
Definition str_truthy (s : string) : bool :=
  match s with EmptyString => false | _ => true end.

Definition is_digit (c : ascii) : bool :=
  let n := nat_of_ascii c in (Nat.leb 48 n && Nat.leb n 57)%bool.

(** The digits of a decimal literal, in which single underscores may sit
    between digits; [count] is the number of digits read so far. *)
Fixpoint digits (acc : Z) (count : nat) (after_digit : bool) (s : string)
    : option Z :=
  match s with
  | EmptyString =>
      if (after_digit && Nat.leb count 4300)%bool then Some acc else None
  | String c s' =>
      if is_digit c then
        digits (10 * acc + Z.of_nat (nat_of_ascii c - 48)) (S count) true s'
      else if Ascii.eqb c "_" then
        if after_digit then digits acc count false s' else None
      else None
  end.

(** [int(s)] for a string as CPython 3.11 has it by default: surrounding
    white space, an optional sign, decimal digits with single underscores
    between them, and a [ValueError] for anything else or for more than
    4300 digits.  (Below code point 256 the decimal digits are 0 to 9.) *)
Definition py_int (s : string) : outcome Z :=
  let body := strip s in
  let parsed :=
    match body with
    | String "+" rest => digits 0 0 false rest
    | String "-" rest => option_map Z.opp (digits 0 0 false rest)
    | _ => digits 0 0 false body
    end in
  match parsed with
  | Some z => Normal z
  | None => Raised ValueError
  end.

(** [x in [a, b]] for strings *)
Definition in_strs (x : string) (l : list string) : bool :=
  existsb (String.eqb x) l.

End Py.

Import Py.

(** ** [observability/registry.py] *)

Module Registry.

(** [math.log]: a [ValueError] outside the positive reals. *)
Definition math_log (x : R) : outcome R :=
  if Rle_dec x 0 then Raised ValueError else Normal (ln x).

(** [generate_histogram_buckets(num_buckets, min_val, max_val)] *)
Definition generate_histogram_buckets
    (num_buckets : Z) (min_val max_val : R) : outcome (list R) :=
  if num_buckets <? 2 then Raised ValueError
  else
    let min_val := if Rle_dec min_val 0 then (0.1)%R else min_val in
    let num_boundaries := num_buckets - 1 in
    match math_log min_val with
    | Raised e => Raised e
    | Normal log_min =>
        match math_log max_val with
        | Raised e => Raised e
        | Normal log_max =>
            let log_step := ((log_max - log_min) / IZR num_boundaries)%R in
            Normal (map (fun i : nat => exp (log_min + INR i * log_step)%R)
                        (seq 0 (Z.to_nat num_boundaries)))
        end
    end.

(** *** The objects the registry talks to *)

(** Values found in a frame's data dictionary. *)
#[warnings="-register-all"]
Inductive pyval : Type :=
| PNone
| PBool (b : bool)
| PInt (z : Z)
| PFloat (x : R)
| PStr (s : string)
| PList (l : list pyval).

(** An OpenTelemetry instrument: an object with an identity whose [add] and
    [record] methods may raise.  Instrument objects are truthy. *)
Record Instrument : Type := {
  inst_id : nat;
  inst_add : R -> outcome unit;
  inst_record : R -> outcome unit
}.

(** An OpenTelemetry [Meter]: an object with an identity and three factory
    methods, each of which may raise.  Meter objects are truthy. *)
Record Meter : Type := {
  meter_id : nat;
  create_counter : string -> outcome Instrument;
  create_histogram : string -> list R -> outcome Instrument;
  create_observable_gauge : string -> outcome Instrument
}.

Inductive level : Type := DEBUG | INFO | WARNING | ERROR.

(** What the registry does to the outside world, in order.  A log record is
    kept as its level and the text it is about (the metric name, or the
    joined names for the registration message). *)
Inductive event : Type :=
| CreateCounter (meter : nat) (name : string)
| CreateHistogram (meter : nat) (name : string)
    (explicit_bucket_boundaries_advisory : list R)
| CreateObservableGauge (meter : nat) (name : string)
| CallValueFn (name : string)
| Add (instrument : nat) (amount : R)
| Record_ (instrument : nat) (amount : R)
| Log (lvl : level) (about : string).

(** [MetricSpec] (declared in [specs.py]; its fields are the ones the
    registry and the tests read).  [_otel_inst] is [None] until the registry
    stores the two-slot list [[openlineage_instrument, otel_instrument]]. *)
Record MetricSpec : Type := {
  name : string;
  instrument : string;
  value_fn : gmap string pyval -> outcome (option R);
  export_mode : string;
  target : string;
  boundaries : option (list R);
  num_buckets : Z;
  _otel_inst : option (option Instrument * option Instrument)
}.

(** Assignment to [spec._otel_inst]. *)
Definition set_otel_inst (spec : MetricSpec)
    (v : option (option Instrument * option Instrument)) : MetricSpec :=
  {| name := name spec; instrument := instrument spec;
     value_fn := value_fn spec; export_mode := export_mode spec;
     target := target spec; boundaries := boundaries spec;
     num_buckets := num_buckets spec; _otel_inst := v |}.

(** [spec._otel_inst[0] = i] and [spec._otel_inst[1] = i] on the stored
    list (an [AttributeError]-free path: the list was just assigned). *)
Definition set_slot0 (spec : MetricSpec) (i : option Instrument) : MetricSpec :=
  match _otel_inst spec with
  | Some (_, b) => set_otel_inst spec (Some (i, b))
  | None => spec
  end.

Definition set_slot1 (spec : MetricSpec) (i : option Instrument) : MetricSpec :=
  match _otel_inst spec with
  | Some (a, _) => set_otel_inst spec (Some (a, i))
  | None => spec
  end.

(** *** Effects: an event trace and exceptions *)

Definition M (A : Type) : Type := (list event * outcome A)%type.

Definition ret {A : Type} (a : A) : M A := ([], Normal a).

Definition bind {A B : Type} (m : M A) (k : A -> M B) : M B :=
  match m with
  | (t, Normal a) => let (t', r) := k a in (t ++ t', r)
  | (t, Raised e) => (t, Raised e)
  end.

(** A call on a foreign object: the call is observed, then it returns or
    raises. *)
Definition call {A : Type} (ev : event) (r : outcome A) : M A := ([ev], r).

Definition emit (ev : event) : M unit := call ev (Normal tt).

(** [try: body  except Exception as e: handler(e)] *)
Definition try_except {A : Type} (body : M A) (handler : exn -> M A) : M A :=
  match body with
  | (t, Normal a) => (t, Normal a)
  | (t, Raised e) => let (t', r) := handler e in (t ++ t', r)
  end.

(** [for x in xs: body(x)]: an exception leaving the body ends the loop. *)
Fixpoint for_each {A : Type} (xs : list A) (body : A -> M unit) : M unit :=
  match xs with
  | [] => ret tt
  | x :: xs' => bind (body x) (fun _ => for_each xs' body)
  end.

Notation "'let*' x ':=' m 'in' k" := (bind m (fun x => k))
  (at level 10, x name, m at level 100, k at level 200, only parsing).
Notation "m ';;' k" := (bind m (fun _ => k))
  (at level 100, k at level 200, right associativity, only parsing).

(** *** [TelemetryRegistry] *)

(** [_create_instrument(meter, spec, target_name)]; [None] is returned for
    an unknown instrument type. *)
Definition _create_instrument (meter : Meter) (spec : MetricSpec)
    (target_name : string) : M (option Instrument) :=
  if String.eqb (instrument spec) "counter" then
    let* instrument := call (CreateCounter (meter_id meter) (name spec))
                            (create_counter meter (name spec)) in
    emit (Log INFO (name spec)) ;;
    ret (Some instrument)
  else if String.eqb (instrument spec) "histogram" then
    let* boundaries :=
      match boundaries spec with
      | Some boundaries =>
          emit (Log INFO (name spec)) ;;
          ret boundaries
      | None =>
          let* boundaries :=
            ([], if str_in "confidence" (lower (name spec)) then
                   generate_histogram_buckets (num_buckets spec) 0%R 1%R
                 else if str_in "detection" (lower (name spec)) then
                   generate_histogram_buckets (num_buckets spec) 0%R 50%R
                 else if str_in "frame" (lower (name spec)) then
                   generate_histogram_buckets (num_buckets spec) 0%R 100%R
                 else if (str_in "time" (lower (name spec))
                          || str_in "latency" (lower (name spec)))%bool then
                   generate_histogram_buckets (num_buckets spec) 0%R 10%R
                 else if (str_in "size" (lower (name spec))
                          || str_in "ratio" (lower (name spec)))%bool then
                   generate_histogram_buckets (num_buckets spec) 0%R 2%R
                 else
                   generate_histogram_buckets (num_buckets spec) 0%R 100%R) in
          emit (Log INFO (name spec)) ;;
          ret boundaries
      end in
    let* instrument :=
      call (CreateHistogram (meter_id meter) (name spec) boundaries)
           (create_histogram meter (name spec) boundaries) in
    ret (Some instrument)
  else if String.eqb (instrument spec) "gauge" then
    let* instrument := call (CreateObservableGauge (meter_id meter) (name spec))
                            (create_observable_gauge meter (name spec)) in
    emit (Log INFO (name spec)) ;;
    ret (Some instrument)
  else
    emit (Log WARNING (name spec)) ;;
    ret None.

Record TelemetryRegistry : Type := {
  _specs : list MetricSpec;
  _meter : Meter;
  _otel_meter : Meter
}.

(** [_create_instruments(spec)].  The spec object is mutated in place, so
    the function returns the spec as it stands when the method returns: an
    exception inside the [try] is logged and leaves the slots assigned so
    far. *)
Definition _create_instruments (self_meter self_otel_meter : Meter)
    (spec : MetricSpec) : list event * MetricSpec :=
  let spec := set_otel_inst spec (Some (None, None)) in
  match (if in_strs (target spec) ["openlineage"; "both"] then
           let* ol_instrument :=
             _create_instrument self_meter spec "OpenLineage" in
           ret (set_slot0 spec (ol_instrument))
         else ret spec) with
  | (t0, Raised e) => (t0 ++ [Log ERROR (name spec)], spec)
  | (t0, Normal spec) =>
      match (if in_strs (target spec) ["otel"; "both"] then
               let* otel_instrument :=
                 _create_instrument self_otel_meter spec "OTEL" in
               ret (set_slot1 spec (otel_instrument))
             else ret spec) with
      | (t1, Raised e) => (t0 ++ t1 ++ [Log ERROR (name spec)], spec)
      | (t1, Normal spec) => (t0 ++ t1, spec)
      end
  end.

(** The loop [for spec in specs: self._create_instruments(spec)]. *)
Fixpoint create_all (self_meter self_otel_meter : Meter)
    (specs : list MetricSpec) : list event * list MetricSpec :=
  match specs with
  | [] => ([], [])
  | spec :: rest =>
      let (t, spec') := _create_instruments self_meter self_otel_meter spec in
      let (ts, rest') := create_all self_meter self_otel_meter rest in
      (t ++ ts, spec' :: rest')
  end.

(** [', '.join(names)] *)
Definition join_names (names : list string) : string :=
  String.concat ", " names.

(** [TelemetryRegistry(meter, specs, otel_meter=None)]: the events of the
    constructor and the registry it leaves, whose specs carry their
    instruments. *)
Definition __init__ (meter : Meter) (specs : list MetricSpec)
    (otel_meter : option Meter) : list event * TelemetryRegistry :=
  let self_otel_meter := match otel_meter with Some m => m | None => meter end in
  let t0 := match specs with
            | [] => []
            | _ => [Log INFO (join_names (map name specs))]
            end in
  let (t, specs') := create_all meter self_otel_meter specs in
  (t0 ++ t,
   {| _specs := specs'; _meter := meter; _otel_meter := self_otel_meter |}).

(** [any(spec._otel_inst)] on the two-slot list. *)
Definition any_slot (slots : option Instrument * option Instrument) : bool :=
  match slots with
  | (None, None) => false
  | _ => true
  end.

(** [_record_to_instrument(instrument, spec, val, target_name)] *)
Definition _record_to_instrument (instrument_ : Instrument) (spec : MetricSpec)
    (val : R) (target_name : string) : M unit :=
  if String.eqb (instrument spec) "counter" then
    call (Add (inst_id instrument_) val) (inst_add instrument_ val) ;;
    emit (Log DEBUG (name spec))
  else if String.eqb (instrument spec) "histogram" then
    call (Record_ (inst_id instrument_) val) (inst_record instrument_ val) ;;
    emit (Log DEBUG (name spec))
  else if String.eqb (instrument spec) "gauge" then
    emit (Log DEBUG (name spec))
  else ret tt.

(** The statements inside the [try] of the loop of [record], for one spec;
    [continue] ends the body. *)
Definition record_body (spec : MetricSpec) (frame_data : gmap string pyval)
    : M unit :=
  match _otel_inst spec with
  | None => ret tt
  | Some slots =>
      if negb (any_slot slots) then ret tt
      else
        let* val := call (CallValueFn (name spec))
                         (value_fn spec frame_data) in
        match val with
        | None => ret tt
        | Some val =>
            match fst slots with
            | Some ol_instrument =>
                _record_to_instrument ol_instrument spec val "OpenLineage"
            | None => ret tt
            end ;;
            match snd slots with
            | Some otel_instrument =>
                _record_to_instrument otel_instrument spec val "OTEL"
            | None => ret tt
            end
        end
  end.

(** One iteration of the loop: the body under its [except Exception]. *)
Definition record_spec (spec : MetricSpec) (frame_data : gmap string pyval)
    : M unit :=
  try_except (record_body spec frame_data)
             (fun e => emit (Log ERROR (name spec))).

(** [record(frame_data)] *)
Definition record (self : TelemetryRegistry) (frame_data : gmap string pyval)
    : M unit :=
  for_each (_specs self) (fun spec => record_spec spec frame_data).

End Registry.

(** ** [record] once more, with the exceptions outside [Exception]

    [record] wraps each iteration in [try: ... except Exception]; such a
    handler catches the instances of [Exception] and lets the other
    instances of [BaseException] through.  Here a raise carries either
    kind, and [record] with its helpers is embedded again on that richer
    result type. *)

Module Interrupts.
Import Registry.

(** The built-in classes derived from [BaseException] and not from
    [Exception]. *)
Inductive base_exn : Type :=
| KeyboardInterrupt
| SystemExit
| GeneratorExit.

(** What a [raise] carries: an instance of [Exception], or one of the
    classes beside it. *)
Inductive raised : Type :=
| Exc (e : exn)
| Base (b : base_exn).

Inductive result (A : Type) : Type :=
| Returns (a : A)
| Raises (r : raised).
Arguments Returns {A} a.
Arguments Raises {A} r.

(** An instrument whose methods may raise either kind. *)
Record Instrument : Type := {
  inst_id : nat;
  inst_add : R -> result unit;
  inst_record : R -> result unit
}.

(** [MetricSpec], with a value function that may raise either kind. *)
Record MetricSpec : Type := {
  name : string;
  instrument : string;
  value_fn : gmap string pyval -> result (option R);
  export_mode : string;
  target : string;
  boundaries : option (list R);
  num_buckets : Z;
  _otel_inst : option (option Instrument * option Instrument)
}.

Record TelemetryRegistry : Type := {
  _specs : list MetricSpec;
  _meter : Meter;
  _otel_meter : Meter
}.

Definition M (A : Type) : Type := (list event * result A)%type.

Definition ret {A : Type} (a : A) : M A := ([], Returns a).

Definition bind {A B : Type} (m : M A) (k : A -> M B) : M B :=
  match m with
  | (t, Returns a) => let (t', r) := k a in (t ++ t', r)
  | (t, Raises r) => (t, Raises r)
  end.

Definition call {A : Type} (ev : event) (r : result A) : M A := ([ev], r).

Definition emit (ev : event) : M unit := call ev (Returns tt).

(** [try: body  except Exception as e: handler(e)]: only an instance of
    [Exception] reaches the handler. *)
Definition try_except {A : Type} (body : M A) (handler : exn -> M A) : M A :=
  match body with
  | (t, Returns a) => (t, Returns a)
  | (t, Raises (Exc e)) => let (t', r) := handler e in (t ++ t', r)
  | (t, Raises (Base b)) => (t, Raises (Base b))
  end.

(** [for x in xs: body(x)]: whatever leaves the body ends the loop. *)
Fixpoint for_each {A : Type} (xs : list A) (body : A -> M unit) : M unit :=
  match xs with
  | [] => ret tt
  | x :: xs' => bind (body x) (fun _ => for_each xs' body)
  end.

(** [any(spec._otel_inst)] on the two-slot list. *)
Definition any_slot (slots : option Instrument * option Instrument) : bool :=
  match slots with
  | (None, None) => false
  | _ => true
  end.

(** [_record_to_instrument(instrument, spec, val, target_name)] *)
Definition _record_to_instrument (instrument_ : Instrument) (spec : MetricSpec)
    (val : R) (target_name : string) : M unit :=
  if String.eqb (instrument spec) "counter" then
    bind (call (Add (inst_id instrument_) val) (inst_add instrument_ val))
         (fun _ => emit (Log DEBUG (name spec)))
  else if String.eqb (instrument spec) "histogram" then
    bind (call (Record_ (inst_id instrument_) val)
               (inst_record instrument_ val))
         (fun _ => emit (Log DEBUG (name spec)))
  else if String.eqb (instrument spec) "gauge" then
    emit (Log DEBUG (name spec))
  else ret tt.

(** The statements inside the [try] of the loop of [record], for one spec;
    [continue] ends the body. *)
Definition record_body (spec : MetricSpec) (frame_data : gmap string pyval)
    : M unit :=
  match _otel_inst spec with
  | None => ret tt
  | Some slots =>
      if negb (any_slot slots) then ret tt
      else
        bind (call (CallValueFn (name spec)) (value_fn spec frame_data))
             (fun val =>
                match val with
                | None => ret tt
                | Some val =>
                    bind
                      match fst slots with
                      | Some ol_instrument =>
                          _record_to_instrument ol_instrument spec val
                                                "OpenLineage"
                      | None => ret tt
                      end
                      (fun _ =>
                         match snd slots with
                         | Some otel_instrument =>
                             _record_to_instrument otel_instrument spec val
                                                   "OTEL"
                         | None => ret tt
                         end)
                end)
  end.

(** One iteration of the loop: the body under its [except Exception]. *)
Definition record_spec (spec : MetricSpec) (frame_data : gmap string pyval)
    : M unit :=
  try_except (record_body spec frame_data)
             (fun e => emit (Log ERROR (name spec))).

(** [record(frame_data)] *)
Definition record (self : TelemetryRegistry) (frame_data : gmap string pyval)
    : M unit :=
  for_each (_specs self) (fun spec => record_spec spec frame_data).

(** *** The objects of [Registry] seen here

    Results, instruments, specs and registries that raise instances of
    [Exception] only. *)

Definition of_outcome {A : Type} (o : outcome A) : result A :=
  match o with
  | Normal a => Returns a
  | Raised e => Raises (Exc e)
  end.

Definition of_M {A : Type} (m : Registry.M A) : M A :=
  (fst m, of_outcome (snd m)).

Definition of_instrument (i : Registry.Instrument) : Instrument :=
  {| inst_id := Registry.inst_id i;
     inst_add := fun v => of_outcome (Registry.inst_add i v);
     inst_record := fun v => of_outcome (Registry.inst_record i v) |}.

Definition of_spec (spec : Registry.MetricSpec) : MetricSpec :=
  {| name := Registry.name spec;
     instrument := Registry.instrument spec;
     value_fn := fun d => of_outcome (Registry.value_fn spec d);
     export_mode := Registry.export_mode spec;
     target := Registry.target spec;
     boundaries := Registry.boundaries spec;
     num_buckets := Registry.num_buckets spec;
     _otel_inst :=
       match Registry._otel_inst spec with
       | Some (a, b) =>
           Some (option_map of_instrument a, option_map of_instrument b)
       | None => None
       end |}.

Definition of_registry (self : Registry.TelemetryRegistry)
    : TelemetryRegistry :=
  {| _specs := map of_spec (Registry._specs self);
     _meter := Registry._meter self;
     _otel_meter := Registry._otel_meter self |}.



End Interrupts.

(** ** [observability/config.py] *)

Module Config.

(** Hashable scalars of a loaded YAML document.  The documents modelled hold
    null, integers and strings, on which Python equality is structural. *)
Inductive atom : Type :=
| ANone
| AInt (z : Z)
| AStr (s : string).

#[global] Instance atom_eq_dec : EqDecision atom.
Proof. solve_decision. Defined.

#[global] Instance atom_countable : Countable atom.
Proof.
  refine (inj_countable'
            (fun a => match a with
                      | ANone => inl ()
                      | AInt z => inr (inl z)
                      | AStr s => inr (inr s)
                      end)
            (fun x => match x with
                      | inl _ => ANone
                      | inr (inl z) => AInt z
                      | inr (inr s) => AStr s
                      end) _).
  intros []; reflexivity.
Defined.

(** What [yaml.safe_load] returns: a scalar, a list or a dict (whose keys
    are hashable; a later binding of a key overrides an earlier one). *)
#[warnings="-register-all"]
Inductive yaml : Type :=
| YAtom (a : atom)
| YSeq (items : list yaml)
| YMap (bindings : list (atom * yaml)).

(** What the functions of this file find around them: the process
    environment, the file system, the YAML parser, and the interpreter's
    [int] on strings (which literals it accepts and how many digits it
    allows depends on the Python at hand). *)
Record World : Type := {
  getenv : string -> option string;
  open_read : string -> outcome string;
  yaml_safe_load : string -> outcome yaml;
  builtin_int : string -> outcome Z
}.

Definition and_then {A B : Type} (r : outcome A) (k : A -> outcome B)
    : outcome B :=
  match r with
  | Normal a => k a
  | Raised e => Raised e
  end.

(** Lookup in a dict built from bindings in document order. *)
Fixpoint dict_lookup (bindings : list (atom * yaml)) (key : atom)
    : option yaml :=
  match bindings with
  | [] => None
  | (k, v) :: rest =>
      match dict_lookup rest key with
      | Some v' => Some v'
      | None => if decide (k = key) then Some v else None
      end
  end.

(** [config.get(key, default)]: only a dict has [get]. *)
Definition get (config : yaml) (key : string) (default : yaml) : outcome yaml :=
  match config with
  | YMap bindings =>
      Normal (match dict_lookup bindings (AStr key) with
              | Some v => v
              | None => default
              end)
  | _ => Raised AttributeError
  end.

(** The one-character strings of a string, in order. *)
Fixpoint chars (s : string) : list string :=
  match s with
  | EmptyString => []
  | String c s' => String c EmptyString :: chars s'
  end.

(** The elements of a list as set members: lists and dicts are unhashable. *)
Fixpoint hashables (items : list yaml) : outcome (list atom) :=
  match items with
  | [] => Normal []
  | YAtom a :: rest =>
      match hashables rest with
      | Normal l => Normal (a :: l)
      | Raised e => Raised e
      end
  | _ :: _ => Raised TypeError
  end.

(** [set(x)]: the elements of a list, the characters of a string, the keys
    of a dict; [None] and numbers are not iterable. *)
Definition py_set (x : yaml) : outcome (gset atom) :=
  match x with
  | YAtom (AStr s) => Normal (list_to_set (map AStr (chars s)))
  | YAtom _ => Raised TypeError
  | YSeq items => and_then (hashables items) (fun l => Normal (list_to_set l))
  | YMap bindings => Normal (list_to_set (map fst bindings))
  end.

(** The statements under the [try] of [read_allowlist]. *)
Definition read_file_allowlist (w : World) (path : string)
    : outcome (gset atom) :=
  and_then (open_read w path) (fun f =>
  and_then (yaml_safe_load w f) (fun config =>
  and_then (get config "safe_metrics" (YSeq [])) py_set)).

(** [set(name.strip() for name in env.split(",") if name.strip())] *)
Definition parse_env (env : string) : gset atom :=
  list_to_set
    (map (fun name => AStr (strip name))
         (filter (fun name => str_truthy (strip name) = true)
                 (split "," env))).

(** The part of [read_allowlist] after the file has been tried. *)
Definition read_env_allowlist (w : World) : gset atom :=
  match getenv w "OF_SAFE_METRICS" with
  | Some env => if str_truthy env then parse_env env else ∅
  | None => ∅
  end.

(** [read_allowlist()]: the warnings printed (path and exception) and the
    set returned. *)
Definition read_allowlist (w : World) : list (string * exn) * gset atom :=
  match getenv w "OF_SAFE_METRICS_FILE" with
  | Some path =>
      if str_truthy path then
        match read_file_allowlist w path with
        | Normal allowed => ([], allowed)
        | Raised e => ([(path, e)], read_env_allowlist w)
        end
      else ([], read_env_allowlist w)
  | None => ([], read_env_allowlist w)
  end.

End Config.

(** ** The filter worker (from the specification)

    The filter runtime ([filter_runtime/filter.py], [frame.py]) is not among
    the sources at hand; only its tests are.  The definitions of this module
    follow the specification and what [tests/test_filter.py] expects. *)

Module Worker.

(** Modelled from the spec: the scalars of metadata, data and configuration
    mappings of the missing filter runtime. *)
Inductive scalar : Type :=
| SInt (z : Z)
| SFloat (x : R)
| SStr (s : string)
| SBool (b : bool).

(** Modelled from the spec: the frame of the missing [frame.py], "a metadata
    mapping containing at minimum [meta.ts] and optionally [meta.id]
    (integer frame ID)" and "an arbitrary data mapping"; the image payload
    plays no part here and is left out. *)
Record Frame : Type := {
  meta : gmap string scalar;
  data : gmap string scalar
}.

(** Modelled from the spec: [meta.id] of a frame of the missing runtime,
    when the metadata provides an integer under ["id"]. *)
Definition meta_id (f : Frame) : option Z :=
  match meta f !! "id" with
  | Some (SInt i) => Some i
  | _ => None
  end.

(** Modelled from the spec: the frame ID the missing worker loop takes from
    a frame set (topic and frame, in order), "if any input frame's metadata
    provides [meta.id]": the first one that does. *)
Fixpoint input_frame_id (frames : list (string * Frame)) : option Z :=
  match frames with
  | [] => None
  | (_, f) :: rest =>
      match meta_id f with
      | Some i => Some i
      | None => input_frame_id rest
      end
  end.

(** Modelled from the spec: the part of the missing worker's state that the
    [_filter] topic needs, the "per-worker monotonic counter starting at
    0". *)
Record WorkerState : Type := { frame_counter : Z }.

Definition initial_worker : WorkerState := {| frame_counter := 0 |}.

(** Modelled from the spec: the [_filter] frame of the missing worker loop,
    carrying the logical frame ID under ["id"]. *)
Definition filter_frame (id : Z) : Frame :=
  {| meta := ∅; data := {[ "id" := SInt id ]} |}.

(** Modelled from the spec: one tick of the missing worker loop as far as
    the [_filter] topic goes, "if any input frame's metadata provides
    [meta.id], the worker propagates it; otherwise it generates a per-worker
    monotonic counter starting at 0". *)
Definition emit_filter (w : WorkerState) (frames : list (string * Frame))
    : WorkerState * Frame :=
  match input_frame_id frames with
  | Some i => (w, filter_frame i)
  | None =>
      ({| frame_counter := frame_counter w + 1 |},
       filter_frame (frame_counter w))
  end.

(** Modelled from the spec: the missing worker loop run over a sequence of
    ticks, collecting the [_filter] frames. *)
Fixpoint run_ticks (w : WorkerState) (ticks : list (list (string * Frame)))
    : WorkerState * list Frame :=
  match ticks with
  | [] => (w, [])
  | frames :: rest =>
      let (w', f) := emit_filter w frames in
      let (w'', fs) := run_ticks w' rest in
      (w'', f :: fs)
  end.

(** Modelled from the spec: what the missing worker samples for the
    [_metrics] topic, "timestamp, instantaneous FPS, CPU%, RSS bytes,
    in-latency, out-latency, uptime ticks, cumulative frame count,
    cumulative megapixels". *)
Record MetricsSample : Type := {
  ts : R;
  fps : R;
  cpu : R;
  mem : Z;
  lat_in : R;
  lat_out : R;
  uptime_count : Z;
  frame_count : Z;
  megapx_count : R
}.

(** Modelled from the spec: the [_metrics] frame of the missing worker loop,
    the sample with "[extra_metrics], a mapping of string to scalar merged
    into every [_metrics] frame". *)
Definition metrics_frame (s : MetricsSample)
    (extra_metrics : gmap string scalar) : Frame :=
  {| meta := ∅;
     data := extra_metrics ∪
             list_to_map
               [("ts", SFloat (ts s)); ("fps", SFloat (fps s));
                ("cpu", SFloat (cpu s)); ("mem", SInt (mem s));
                ("lat_in", SFloat (lat_in s)); ("lat_out", SFloat (lat_out s));
                ("uptime_count", SInt (uptime_count s));
                ("frame_count", SInt (frame_count s));
                ("megapx_count", SFloat (megapx_count s))] |}.

(** Modelled from the spec: the values of the configuration of the missing
    [Filter.normalize_config]: scalars, lists of strings, lists of pairs and
    mappings, as [test_normalize_config] passes and expects them. *)
Inductive cfgval : Type :=
| VScalar (v : scalar)
| VList (l : list string)
| VPairs (l : list (string * scalar))
| VDict (m : gmap string scalar).

(** Modelled from the spec: [FilterConfig] of the missing runtime, "a
    tagged config record", open to the fields filters add. *)
Record FilterConfig : Type := { fields : gmap string cfgval }.

(** Modelled from the spec: the argument of the missing
    [Filter.normalize_config], "either a record or a field-name to value
    map". *)
Inductive config_source : Type :=
| FromMap (m : gmap string cfgval)
| FromRecord (c : FilterConfig).

(** Modelled from the spec: [dict(pairs)] as the missing
    [Filter.normalize_config] applies it to [extra_metrics]; a later pair
    overrides an earlier one. *)
Definition dict_of_pairs (l : list (string * scalar)) : gmap string scalar :=
  list_to_map (reverse l).

(** Modelled from the spec: the normal form of one field in the missing
    [Filter.normalize_config], after [test_normalize_config]: [sources],
    [outputs] and [outputs_required] given as one comma-separated string
    become the list of the stripped pieces, [extra_metrics] given as pairs
    becomes a mapping, anything else is kept. *)
Definition normalize_field (key : string) (v : cfgval) : cfgval :=
  if in_strs key ["sources"; "outputs"; "outputs_required"] then
    match v with
    | VScalar (SStr s) => VList (map strip (split "," s))
    | _ => v
    end
  else if String.eqb key "extra_metrics" then
    match v with
    | VPairs l => VDict (dict_of_pairs l)
    | _ => v
    end
  else v.

(** Modelled from the spec: the missing [Filter.normalize_config], "a single
    entry point that accepts either a record or a field-name to value map"
    and returns the record. *)
Definition normalize_config (config : config_source) : FilterConfig :=
  let m := match config with
           | FromMap m => m
           | FromRecord c => fields c
           end in
  {| fields := map_imap (fun key v => Some (normalize_field key v)) m |}.

End Worker.

(** ** Reference definitions used in the statements *)

Module Statements.
Import Registry Config Worker.



(** Log-spaced boundaries: [n - 1] points starting at [lo], the next one
    after the last would be [hi]. *)
Definition log_spaced (n : Z) (lo hi : R) : list R :=
  map (fun i : nat => exp (ln lo + INR i * ((ln hi - ln lo) / IZR (n - 1)))%R)
      (seq 0 (Z.to_nat (n - 1))).

(** The upper end of the domain over which boundaries are generated, as the
    registry infers it from the lower-cased metric name: the first matching
    rule wins, in this order. *)
Definition inferred_max (name : string) : R :=
  let n := lower name in
  if str_in "confidence" n then 1%R
  else if str_in "detection" n then 50%R
  else if str_in "frame" n then 100%R
  else if (str_in "time" n || str_in "latency" n)%bool then 10%R
  else if (str_in "size" n || str_in "ratio" n)%bool then 2%R
  else 100%R.

(** The same table without the rule for ["frame"], which is how the
    documentation lists it. *)
Definition documented_max (name : string) : R :=
  let n := lower name in
  if str_in "confidence" n then 1%R
  else if str_in "detection" n then 50%R
  else if (str_in "time" n || str_in "latency" n)%bool then 10%R
  else if (str_in "size" n || str_in "ratio" n)%bool then 2%R
  else 100%R.

(** The result of a factory call, as [_create_instrument] returns it. *)
Definition created (r : outcome Instrument) : outcome (option Instrument) :=
  match r with
  | Normal i => Normal (Some i)
  | Raised e => Raised e
  end.

(** The instruments a spec holds, business slot first. *)
Definition instruments_of (spec : MetricSpec) : list Instrument :=
  match _otel_inst spec with
  | Some (a, b) => option_list a ++ option_list b
  | None => []
  end.

(** The instrument [_create_instrument] returns, when it returns one. *)
Definition made (meter : Meter) (spec : MetricSpec) (target_name : string)
    : option Instrument :=
  match snd (_create_instrument meter spec target_name) with
  | Normal (Some i) => Some i
  | _ => None
  end.

Definition raisesb {A : Type} (r : outcome A) : bool :=
  match r with
  | Raised _ => true
  | Normal _ => false
  end.

(** The two slots a spec ends up with after [_create_instruments]: a slot is
    filled when its target is asked for and the instrument could be made; an
    exception while filling the business slot also ends the attempt for the
    OTEL slot. *)
Definition business_slot (meter : Meter) (spec : MetricSpec)
    : option Instrument :=
  if in_strs (target spec) ["openlineage"; "both"]
  then made meter spec "OpenLineage"
  else None.

Definition otel_slot (meter otel_meter : Meter) (spec : MetricSpec)
    : option Instrument :=
  if (in_strs (target spec) ["otel"; "both"]
      && negb (in_strs (target spec) ["openlineage"; "both"]
               && raisesb (snd (_create_instrument meter spec "OpenLineage"))))%bool
  then made otel_meter spec "OTEL"
  else None.

(** An instrument that accepts every value, and a meter whose factories
    always succeed; instrument identities are [base + 0/1/2] by kind. *)
Definition quiet_instrument (id : nat) : Instrument :=
  {| inst_id := id;
     inst_add := fun _ => Normal tt;
     inst_record := fun _ => Normal tt |}.

Definition quiet_meter (id base : nat) : Meter :=
  {| meter_id := id;
     create_counter := fun _ => Normal (quiet_instrument base);
     create_histogram := fun _ _ => Normal (quiet_instrument (base + 1));
     create_observable_gauge := fun _ => Normal (quiet_instrument (base + 2)) |}.

(** A spec as [MetricSpec(name, instrument, value_fn, target=..., ...)]
    builds it: [export_mode] defaults to ["aggregated"], [_otel_inst] to
    [None]. *)
Definition mk_spec (name instrument : string)
    (value_fn : gmap string pyval -> outcome (option R))
    (target : string) (boundaries : option (list R)) (num_buckets : Z)
    : MetricSpec :=
  {| name := name; instrument := instrument; value_fn := value_fn;
     export_mode := "aggregated"; target := target;
     boundaries := boundaries; num_buckets := num_buckets;
     _otel_inst := None |}.

(** Frame data as in the tests: [{"test": "data"}]. *)
Definition demo_data : gmap string pyval := {[ "test" := PStr "data" ]}.

(** The registry of the unit tests: a counter and a histogram with explicit
    boundaries, both for the business target only. *)
Definition test_counter : MetricSpec :=
  mk_spec "test_counter" "counter" (fun _ => Normal (Some 1%R))
          "openlineage" None 10.

Definition test_histogram : MetricSpec :=
  mk_spec "test_histogram" "histogram" (fun _ => Normal (Some 3%R))
          "openlineage" (Some [0; 1; 2; 5]%R) 10.

Definition test_registry : TelemetryRegistry :=
  snd (__init__ (quiet_meter 0 0) [test_counter; test_histogram]
                (Some (quiet_meter 1 10))).

(** The two specs as the constructor leaves them. *)
Definition test_counter_registered : MetricSpec :=
  set_otel_inst test_counter (Some (Some (quiet_instrument 0), None)).

Definition test_histogram_registered : MetricSpec :=
  set_otel_inst test_histogram (Some (Some (quiet_instrument 1), None)).

(** A gauge for the OTEL target, and a spec whose instrument type the
    registry does not know. *)
Definition queue_depth : MetricSpec :=
  mk_spec "queue_depth" "gauge" (fun _ => Normal (Some 7%R)) "otel" None 10.

Definition bytes_seen : MetricSpec :=
  mk_spec "bytes_seen" "summary" (fun _ => Normal (Some 1%R)) "both" None 10.

Definition gauge_registry : TelemetryRegistry :=
  snd (__init__ (quiet_meter 0 0) [queue_depth; bytes_seen]
                (Some (quiet_meter 1 10))).

(** The counter of the tests next to the spec of unknown instrument type. *)
Definition guard_registry : TelemetryRegistry :=
  snd (__init__ (quiet_meter 0 0) [test_counter; bytes_seen]
                (Some (quiet_meter 1 10))).

(** A histogram without boundaries that asks for a single bucket, for both
    targets. *)
Definition box_area : MetricSpec :=
  mk_spec "box_area" "histogram" (fun _ => Normal (Some 4%R)) "both" None 1.

(** The dual-target counter of the tests. *)
Definition dual_counter : MetricSpec :=
  mk_spec "dual_counter" "counter" (fun _ => Normal (Some 1%R)) "both" None 10.

Definition dual_registry : TelemetryRegistry :=
  snd (__init__ (quiet_meter 0 0) [box_area; dual_counter]
                (Some (quiet_meter 1 10))).

(** A value function that raises, between two counters. *)
Definition broken : MetricSpec :=
  mk_spec "broken" "counter" (fun _ => Raised (RuntimeError "boom"))
          "openlineage" None 10.

Definition faulty_registry : TelemetryRegistry :=
  snd (__init__ (quiet_meter 0 0) [test_counter; broken; test_counter]
                (Some (quiet_meter 1 10))).

(** A counter whose value function is interrupted from the keyboard, in
    front of the counter of the tests; both hold the business instrument. *)
Definition interrupted : Interrupts.MetricSpec :=
  {| Interrupts.name := "interrupted";
     Interrupts.instrument := "counter";
     Interrupts.value_fn :=
       fun _ => Interrupts.Raises (Interrupts.Base Interrupts.KeyboardInterrupt);
     Interrupts.export_mode := "aggregated";
     Interrupts.target := "openlineage";
     Interrupts.boundaries := None;
     Interrupts.num_buckets := 10;
     Interrupts._otel_inst :=
       Some (Some (Interrupts.of_instrument (quiet_instrument 0)), None) |}.


(** An environment given by its two allowlist variables. *)
Definition env_with (file metrics : option string) (var : string)
    : option string :=
  if String.eqb var "OF_SAFE_METRICS_FILE" then file
  else if String.eqb var "OF_SAFE_METRICS" then metrics
  else None.

(** Both variables set; the file holds [safe_metrics: [fps]]. *)
Definition file_world : World :=
  {| getenv := env_with (Some "/etc/openfilter/safe.yaml") (Some "cpu,mem");
     open_read := fun _ => Normal "safe_metrics: [fps]";
     yaml_safe_load := fun _ =>
       Normal (YMap [(AStr "safe_metrics", YSeq [YAtom (AStr "fps")])]);
     builtin_int := py_int |}.

(** Both variables set; the file exists and is empty, which [safe_load]
    reads as [None]. *)
Definition empty_file_world : World :=
  {| getenv := env_with (Some "/etc/openfilter/safe.yaml") (Some "cpu,mem");
     open_read := fun _ => Normal "";
     yaml_safe_load := fun _ => Normal (YAtom ANone);
     builtin_int := py_int |}.

(** Only [OF_SAFE_METRICS] set, as in the tests. *)
Definition env_world (metrics : string) : World :=
  {| getenv := env_with None (Some metrics);
     open_read := fun _ => Raised OSError;
     yaml_safe_load := fun _ => Raised YAMLError;
     builtin_int := py_int |}.

(** The configuration of [test_normalize_config], as passed ([scfg]) and
    as expected ([dcfg]). *)
Definition scfg : gmap string cfgval :=
  list_to_map
    [("id", VScalar (SStr "filter"));
     ("sources",
      VScalar (SStr "tcp://localhost:5552;main, ipc://myipcin;other"));
     ("sources_balance", VScalar (SBool true));
     ("sources_timeout", VScalar (SInt 100));
     ("sources_low_latency", VScalar (SBool true));
     ("outputs", VScalar (SStr "tcp://*:5554; ipc://myipcout"));
     ("outputs_balance", VScalar (SBool true));
     ("outputs_timeout", VScalar (SInt 200));
     ("outputs_required", VScalar (SStr "filter1, filter2"));
     ("outputs_metrics", VScalar (SStr "tcp://*:5554"));
     ("outputs_jpg", VScalar (SBool false));
     ("exit_after", VScalar (SStr "@2024-09-17T06:26:20.189123-04:00"));
     ("environment", VScalar (SStr "production"));
     ("log_path", VScalar (SStr "logs"));
     ("metrics_interval", VScalar (SInt 120));
     ("extra_metrics",
      VPairs [("my_int_metric", SInt 1); ("my_str_metric", SStr "str")]);
     ("mq_log", VScalar (SStr "pretty"));
     ("mq_msgid_sync", VScalar (SBool false))].

Definition dcfg : FilterConfig :=
  {| fields :=
       list_to_map
         [("id", VScalar (SStr "filter"));
          ("sources",
           VList ["tcp://localhost:5552;main"; "ipc://myipcin;other"]);
          ("sources_balance", VScalar (SBool true));
          ("sources_timeout", VScalar (SInt 100));
          ("sources_low_latency", VScalar (SBool true));
          ("outputs", VList ["tcp://*:5554; ipc://myipcout"]);
          ("outputs_balance", VScalar (SBool true));
          ("outputs_timeout", VScalar (SInt 200));
          ("outputs_required", VList ["filter1"; "filter2"]);
          ("outputs_metrics", VScalar (SStr "tcp://*:5554"));
          ("outputs_jpg", VScalar (SBool false));
          ("exit_after", VScalar (SStr "@2024-09-17T06:26:20.189123-04:00"));
          ("environment", VScalar (SStr "production"));
          ("log_path", VScalar (SStr "logs"));
          ("metrics_interval", VScalar (SInt 120));
          ("extra_metrics",
           VDict (list_to_map
                    [("my_int_metric", SInt 1); ("my_str_metric", SStr "str")]));
          ("mq_log", VScalar (SStr "pretty"));
          ("mq_msgid_sync", VScalar (SBool false))] |}.

End Statements.

(** ** [observability/config.py], the exporter settings *)

Module ExporterConfig.
Import Config.

(** Truth value of a loaded YAML value. *)
Definition truthy (y : yaml) : bool :=
  match y with
  | YAtom ANone => false
  | YAtom (AInt z) => negb (z =? 0)
  | YAtom (AStr s) => str_truthy s
  | YSeq items => match items with [] => false | _ :: _ => true end
  | YMap bindings => match bindings with [] => false | _ :: _ => true end
  end.

(** [a or b] *)
Definition py_or (a b : yaml) : yaml := if truthy a then a else b.

(** What [os.getenv(var)] returns, as a value: a string or [None]. *)
Definition of_env (o : option string) : yaml :=
  match o with
  | Some s => YAtom (AStr s)
  | None => YAtom ANone
  end.

(** The values of the dictionaries returned: what came from the file or the
    environment, or a Python [bool]. *)
Inductive value : Type :=
| FromYaml (y : yaml)
| PyBool (b : bool).

(** The statements under the [try] of [read_openlineage_config]; [None]
    stands for falling out of the [if]. *)
Definition openlineage_section (w : World) (path : string)
    : outcome (option (gmap string yaml)) :=
  and_then (open_read w path) (fun f =>
  and_then (yaml_safe_load w f) (fun config =>
  and_then (get config "openlineage" (YMap [])) (fun ol_config =>
  if truthy ol_config then
    and_then (get ol_config "url" (YAtom ANone)) (fun url =>
    and_then (get ol_config "api_key" (YAtom ANone)) (fun api_key =>
    and_then (get ol_config "heartbeat_interval" (YAtom (AInt 10)))
      (fun heartbeat_interval =>
    Normal (Some (<["url" := url]>
                  (<["api_key" := api_key]>
                   (<["heartbeat_interval" := heartbeat_interval]> ∅)))))))
  else Normal None))).

(** [read_openlineage_config()]: the warnings printed and the dictionary
    returned, or [None]. *)
Definition read_openlineage_config (w : World)
    : list (string * exn) * option (gmap string yaml) :=
  match getenv w "OF_SAFE_METRICS_FILE" with
  | Some path =>
      if str_truthy path then
        match openlineage_section w path with
        | Normal r => ([], r)
        | Raised e => ([(path, e)], None)
        end
      else ([], None)
  | None => ([], None)
  end.

(** The statements under the [try] of [read_otel_config]. *)
Definition otel_section (w : World) (path : string)
    : outcome (option (gmap string value)) :=
  and_then (open_read w path) (fun f =>
  and_then (yaml_safe_load w f) (fun config =>
  and_then (get config "opentelemetry" (YMap [])) (fun otel_config =>
  if truthy otel_config then
    and_then (get otel_config "endpoint" (YAtom ANone)) (fun endpoint =>
    and_then (get otel_config "headers" (YAtom ANone)) (fun headers =>
    and_then (get otel_config "protocol" (YAtom (AStr "grpc"))) (fun protocol =>
    and_then (get otel_config "export_interval" (YAtom (AInt 30)))
      (fun export_interval =>
    Normal
      (Some
         (<["endpoint" :=
              FromYaml (py_or endpoint
                          (of_env (getenv w "OTEL_EXPORTER_OTLP_ENDPOINT")))]>
          (<["headers" :=
               FromYaml (py_or headers
                           (of_env (getenv w "OTEL_EXPORTER_OTLP_HEADERS")))]>
           (<["protocol" := FromYaml protocol]>
            (<["export_interval" := FromYaml export_interval]>
             (<["enabled" :=
                  match otel_config with
                  | YMap bindings =>
                      match dict_lookup bindings (AStr "enabled") with
                      | Some v => FromYaml v
                      | None => PyBool true
                      end
                  | _ => PyBool true
                  end]> ∅))))))))))
  else Normal None))).

(** The fallback of [read_otel_config] to the environment; [int(...)] is
    not under any [try]. *)
Definition otel_from_env (w : World) : outcome (option (gmap string value)) :=
  match getenv w "OTEL_EXPORTER_OTLP_ENDPOINT" with
  | Some endpoint =>
      if str_truthy endpoint then
        and_then (builtin_int w
                    (default "30" (getenv w "OTEL_EXPORT_INTERVAL")))
          (fun export_interval =>
        Normal
          (Some
             (<["endpoint" := FromYaml (YAtom (AStr endpoint))]>
              (<["headers" :=
                   FromYaml (of_env (getenv w "OTEL_EXPORTER_OTLP_HEADERS"))]>
               (<["protocol" :=
                    FromYaml
                      (YAtom (AStr (default "grpc"
                                      (getenv w "OTEL_EXPORTER_OTLP_PROTOCOL"))))]>
                (<["export_interval" := FromYaml (YAtom (AInt export_interval))]>
                 (<["enabled" :=
                      PyBool (in_strs
                                (lower (default "true" (getenv w "OTEL_ENABLED")))
                                ["true"; "1"; "yes"])]> ∅)))))))
      else Normal None
  | None => Normal None
  end.

(** [read_otel_config()]: the warnings printed, and the dictionary or [None]
    returned or the exception raised. *)
Definition read_otel_config (w : World)
    : list (string * exn) * outcome (option (gmap string value)) :=
  match getenv w "OF_SAFE_METRICS_FILE" with
  | Some path =>
      if str_truthy path then
        match otel_section w path with
        | Normal (Some r) => ([], Normal (Some r))
        | Normal None => ([], otel_from_env w)
        | Raised e => ([(path, e)], otel_from_env w)
        end
      else ([], otel_from_env w)
  | None => ([], otel_from_env w)
  end.

(** Two worlds with the same files and parser whose environments agree
    outside the given variables. *)
Definition differ_only_on (vars : list string) (w w' : World) : Prop :=
  open_read w' = open_read w /\
  yaml_safe_load w' = yaml_safe_load w /\
  forall var : string, ~ In var vars -> getenv w' var = getenv w var.

End ExporterConfig.

(** ** Sample environments *)

Module Worlds.
Import Config ExporterConfig Statements.

(** An environment given by a list of variables. *)
Definition env_of (vars : list (string * string)) (var : string)
    : option string :=
  (list_to_map vars : gmap string string) !! var.

(** A world with one file, already parsed. *)
Definition world_with (vars : list (string * string)) (document : yaml)
    : World :=
  {| getenv := env_of vars;
     open_read := fun _ => Normal "";
     yaml_safe_load := fun _ => Normal document;
     builtin_int := py_int |}.

(** [safe_metrics: [" fps ", "cpu,mem"]] *)
Definition verbatim_world : World :=
  world_with [("OF_SAFE_METRICS_FILE", "/etc/openfilter/safe.yaml")]
    (YMap [(AStr "safe_metrics",
            YSeq (map YAtom [AStr " fps "; AStr "cpu,mem"]))]).

(** [safe_metrics: fps], a scalar instead of a list. *)
Definition scalar_world : World :=
  world_with [("OF_SAFE_METRICS_FILE", "/etc/openfilter/safe.yaml")]
    (YMap [(AStr "safe_metrics", YAtom (AStr "fps"))]).

(** A file with an [openlineage] section that gives a URL only. *)
Definition lineage_world : World :=
  world_with [("OF_SAFE_METRICS_FILE", "/etc/openfilter/safe.yaml")]
    (YMap [(AStr "openlineage",
            YMap [(AStr "url", YAtom (AStr "http://marquez:5000"))])]).

(** A file with an [opentelemetry] section that gives the protocol only,
    and an environment with an endpoint and an interval that is no
    number. *)
Definition otel_file_world : World :=
  world_with [("OF_SAFE_METRICS_FILE", "/etc/openfilter/safe.yaml");
              ("OTEL_EXPORTER_OTLP_ENDPOINT", "http://collector:4317");
              ("OTEL_EXPORT_INTERVAL", "soon")]
    (YMap [(AStr "opentelemetry",
            YMap [(AStr "protocol", YAtom (AStr "http"))])]).

(** The same file, with the interval and the flag set differently. *)
Definition otel_file_world_reset : World :=
  world_with [("OF_SAFE_METRICS_FILE", "/etc/openfilter/safe.yaml");
              ("OTEL_EXPORTER_OTLP_ENDPOINT", "http://collector:4317");
              ("OTEL_EXPORT_INTERVAL", "60");
              ("OTEL_ENABLED", "no")]
    (YMap [(AStr "opentelemetry",
            YMap [(AStr "protocol", YAtom (AStr "http"))])]).

(** No file, an endpoint, and an interval that is no number. *)
Definition otel_env_world : World :=
  {| getenv := env_of [("OTEL_EXPORTER_OTLP_ENDPOINT", "http://collector:4317");
                       ("OTEL_EXPORT_INTERVAL", "soon")];
     open_read := fun _ => Raised OSError;
     yaml_safe_load := fun _ => Raised YAMLError;
     builtin_int := py_int |}.

End Worlds.

(** ** Observations on traces *)

Module Observations.
Import Registry Statements.

(** The meter a factory call is made on. *)
Definition event_meter (ev : event) : option nat :=
  match ev with
  | CreateCounter m _ => Some m
  | CreateHistogram m _ _ => Some m
  | CreateObservableGauge m _ => Some m
  | _ => None
  end.

(** The metric a factory call is made for. *)
Definition event_metric (ev : event) : option string :=
  match ev with
  | CreateCounter _ n => Some n
  | CreateHistogram _ n _ => Some n
  | CreateObservableGauge _ n => Some n
  | _ => None
  end.

Definition is_create (ev : event) : bool :=
  match event_meter ev with
  | Some _ => true
  | None => false
  end.

Definition is_value_call (ev : event) : bool :=
  match ev with
  | CallValueFn _ => true
  | _ => false
  end.

Definition is_error_log (ev : event) : bool :=
  match ev with
  | Log ERROR _ => true
  | _ => false
  end.

(** A call on an instrument, of either kind. *)
Definition is_instrument_call (ev : event) : bool :=
  match ev with
  | Add _ _ => true
  | Record_ _ _ => true
  | _ => false
  end.

(** The number of events of a kind in a trace. *)
Definition count (p : event -> bool) (t : list event) : nat :=
  length (List.filter p t).

(** The spec holds an instrument in some slot. *)
Definition holds_instrument (spec : MetricSpec) : bool :=
  match instruments_of spec with
  | [] => false
  | _ :: _ => true
  end.

(** The lower end of the domain as [generate_histogram_buckets] uses it. *)
Definition effective_min (min_val : R) : R :=
  if Rle_dec min_val 0 then 0.1%R else min_val.

End Observations.

(** ** Properties of [generate_histogram_buckets] *)

Section Buckets.
Import Registry Statements.

Lemma effective_min_pos (min_val : R) :
  (0 < (if Rle_dec min_val 0 then 0.1 else min_val))%R.
Proof. destruct (Rle_dec min_val 0); lra. Qed.

Lemma effective_min_le_max (min_val : R) :
  ((if Rle_dec min_val 0 then 0.1 else min_val) <= Rmax min_val 0.1)%R.
Proof.
  destruct (Rle_dec min_val 0).
  - apply Rmax_r.
  - apply Rmax_l.
Qed.

Lemma generate_histogram_buckets_ok (N : Z) (min_val max_val : R) :
  2 <= N ->
  (Rmax min_val 0.1 < max_val)%R ->
  generate_histogram_buckets N min_val max_val
    = Normal (log_spaced N (if Rle_dec min_val 0 then 0.1%R else min_val) max_val).
Proof.
  intros HN Hlt.
  pose proof (effective_min_pos min_val) as Hpos.
  pose proof (effective_min_le_max min_val) as Hle.
  unfold generate_histogram_buckets.
  destruct (Z.ltb_spec N 2) as [?|_]; [lia|].
  set (m := if Rle_dec min_val 0 then (0.1)%R else min_val) in *.
  unfold math_log.
  destruct (Rle_dec m 0) as [?|_]; [lra|].
  destruct (Rle_dec max_val 0) as [?|_]; [lra|].
  reflexivity.
Qed.

Lemma Rmax_zero_tenth : Rmax 0 0.1 = 0.1%R.
Proof. unfold Rmax. destruct (Rle_dec 0 0.1); lra. Qed.

Lemma generate_from_zero (N : Z) (max_val : R) :
  2 <= N -> (0.1 < max_val)%R ->
  generate_histogram_buckets N 0%R max_val = Normal (log_spaced N 0.1%R max_val).
Proof.
  intros HN Hlt. rewrite generate_histogram_buckets_ok; auto.
  - destruct (Rle_dec 0 0) as [_|?]; [reflexivity|lra].
  - rewrite Rmax_zero_tenth. exact Hlt.
Qed.

(** Two domains with different upper ends give different boundaries as soon
    as there are two of them. *)
Lemma log_spaced_differ (lo a b : R) :
  (0 < a)%R -> (0 < b)%R -> a <> b -> log_spaced 3 lo a <> log_spaced 3 lo b.
Proof.
  intros Ha Hb Hab. unfold log_spaced.
  change (Z.to_nat (3 - 1)) with 2%nat. change (3 - 1) with 2. simpl.
  intros [= _ Heq]. apply exp_inv in Heq.
  apply Hab, ln_inv; [exact Ha|exact Hb|lra].
Qed.

End Buckets.

(** ** Instrument creation *)

Section Creation.
Import Registry Statements.

(** C3 (as documented, refuted).  A histogram spec named ["frame_time"]
    without explicit boundaries and with [num_buckets = 3]: the name
    contains ["time"], for which the documented domain is [0,10], but the
    boundaries handed to [create_histogram] are the ones generated over
    [0,100], and the two lists differ. *)
Lemma histogram_domain_counterexample :
  let spec := mk_spec "frame_time" "histogram" (fun _ => Normal None)
                      "otel" None 3 in
  documented_max (name spec) = 10%R /\
  exists used documented : list R,
    generate_histogram_buckets 3 0%R 100%R = Normal used /\
    generate_histogram_buckets 3 0%R (documented_max (name spec)) = Normal documented /\
    fst (_create_instrument (quiet_meter 0 0) spec "OTEL")
      = [Log INFO "frame_time"; CreateHistogram 0 "frame_time" used] /\
    used <> documented.
Proof.
  simpl. split; [reflexivity|].
  exists (log_spaced 3 0.1%R 100%R), (log_spaced 3 0.1%R 10%R).
  assert (Hu : generate_histogram_buckets 3 0%R 100%R
               = Normal (log_spaced 3 0.1%R 100%R))
    by (apply generate_from_zero; [lia|lra]).
  split; [exact Hu|]. split; [apply generate_from_zero; [lia|lra]|]. split.
  - unfold _create_instrument. cbn -[generate_histogram_buckets].
    rewrite Hu. reflexivity.
  - apply log_spaced_differ; lra.
Qed.

Lemma inferred_max_large (n : string) : (0.1 < inferred_max n)%R.
Proof.
  unfold inferred_max.
  repeat match goal with |- context [if ?b then _ else _] => destruct b end; lra.
Qed.

(** C3 (amended).  For a histogram spec, [_create_instrument] hands
    [create_histogram] exactly the spec's explicit boundaries when they are
    given.  Otherwise the boundaries come from
    [generate_histogram_buckets(num_buckets, 0.0, hi)] where [hi] is inferred
    from the lower-cased name, first match first: "confidence" 1,
    "detection" 50, "frame" 100, "time" or "latency" 10, "size" or "ratio" 2,
    anything else 100; for [num_buckets >= 2] these are the [num_buckets - 1]
    log-spaced points from 0.1 towards [hi], and for [num_buckets < 2] the
    [ValueError] leaves [_create_instrument] before any meter call. *)
Theorem histogram_boundaries (meter : Meter) (spec : MetricSpec)
    (target_name : string) :
  instrument spec = "histogram" ->
  _create_instrument meter spec target_name =
    match boundaries spec with
    | Some bs =>
        ([Log INFO (name spec);
          CreateHistogram (meter_id meter) (name spec) bs],
         created (create_histogram meter (name spec) bs))
    | None =>
        if num_buckets spec <? 2 then ([], Raised ValueError)
        else
          let bs := log_spaced (num_buckets spec) 0.1%R
                               (inferred_max (name spec)) in
          ([Log INFO (name spec);
            CreateHistogram (meter_id meter) (name spec) bs],
           created (create_histogram meter (name spec) bs))
    end.
Proof.
  intros Hi. unfold _create_instrument. rewrite Hi.
  change ("histogram" =? "counter")%string with false.
  change ("histogram" =? "histogram")%string with true. cbv iota.
  destruct (boundaries spec) as [bs|].
  - unfold bind, emit, call, ret, created. simpl.
    destruct (create_histogram meter (name spec) bs); reflexivity.
  - assert (Hgen :
      (if str_in "confidence" (lower (name spec)) then
         generate_histogram_buckets (num_buckets spec) 0%R 1%R
       else if str_in "detection" (lower (name spec)) then
         generate_histogram_buckets (num_buckets spec) 0%R 50%R
       else if str_in "frame" (lower (name spec)) then
         generate_histogram_buckets (num_buckets spec) 0%R 100%R
       else if (str_in "time" (lower (name spec))
                || str_in "latency" (lower (name spec)))%bool then
         generate_histogram_buckets (num_buckets spec) 0%R 10%R
       else if (str_in "size" (lower (name spec))
                || str_in "ratio" (lower (name spec)))%bool then
         generate_histogram_buckets (num_buckets spec) 0%R 2%R
       else generate_histogram_buckets (num_buckets spec) 0%R 100%R)
      = generate_histogram_buckets (num_buckets spec) 0%R
          (inferred_max (name spec))).
    { unfold inferred_max.
      repeat match goal with
             | |- context [if ?b then _ else _] => destruct b
             end; reflexivity. }
    rewrite Hgen. clear Hgen.
    destruct (Z.ltb_spec (num_buckets spec) 2) as [Hlt|Hge].
    + unfold generate_histogram_buckets.
      destruct (Z.ltb_spec (num_buckets spec) 2); [reflexivity|lia].
    + rewrite generate_from_zero by (auto using inferred_max_large).
      unfold bind, emit, call, ret, created. simpl.
      destruct (create_histogram meter (name spec) _); reflexivity.
Qed.

Lemma histogram_boundaries_witness :
  _create_instrument (quiet_meter 0 0)
      (mk_spec "test_histogram" "histogram" (fun _ => Normal None)
               "openlineage" (Some [0; 1; 2; 5]%R) 10) "OpenLineage"
    = ([Log INFO "test_histogram";
        CreateHistogram 0 "test_histogram" [0; 1; 2; 5]%R],
       Normal (Some (quiet_instrument 1))).
Proof.
  apply (histogram_boundaries (quiet_meter 0 0)
           (mk_spec "test_histogram" "histogram" (fun _ => Normal None)
                    "openlineage" (Some [0; 1; 2; 5]%R) 10) "OpenLineage").
  reflexivity.
Defined.

End Creation.

(** ** The slots after construction *)

Section Slots.
Import Registry Statements.

Lemma create_instrument_slots (meter : Meter) (spec : MetricSpec)
    (v : option (option Instrument * option Instrument)) (tn : string) :
  _create_instrument meter (set_otel_inst spec v) tn
    = _create_instrument meter spec tn.
Proof. reflexivity. Qed.

Lemma create_instruments_slots (meter otel_meter : Meter) (spec : MetricSpec) :
  snd (_create_instruments meter otel_meter spec)
    = set_otel_inst spec
        (Some (business_slot meter spec, otel_slot meter otel_meter spec)).
Proof.
  unfold _create_instruments, business_slot, otel_slot, made.
  rewrite create_instrument_slots. cbn [target set_otel_inst].
  destruct (in_strs (target spec) ["openlineage"; "both"]).
  - destruct (_create_instrument meter spec "OpenLineage") as [t0 [i0|e0]];
      cbn [bind ret snd fst raisesb andb negb set_slot0 set_slot1
           set_otel_inst target _otel_inst];
      [|destruct (in_strs (target spec) ["otel"; "both"]); reflexivity].
    destruct (in_strs (target spec) ["otel"; "both"]);
      [|destruct i0; reflexivity].
    change (_create_instrument otel_meter _ "OTEL")
      with (_create_instrument otel_meter spec "OTEL").
    destruct (_create_instrument otel_meter spec "OTEL") as [t1 [[i1|]|e1]];
      destruct i0; reflexivity.
  - cbn [bind ret snd fst raisesb andb negb set_slot0 set_slot1
         set_otel_inst target _otel_inst].
    destruct (in_strs (target spec) ["otel"; "both"]); [|reflexivity].
    change (_create_instrument otel_meter _ "OTEL")
      with (_create_instrument otel_meter spec "OTEL").
    destruct (_create_instrument otel_meter spec "OTEL") as [t1 [[i1|]|e1]];
      reflexivity.
Qed.

Lemma create_all_slots (meter otel_meter : Meter) (specs : list MetricSpec) :
  snd (create_all meter otel_meter specs)
    = map (fun spec =>
             set_otel_inst spec
               (Some (business_slot meter spec,
                      otel_slot meter otel_meter spec)))
          specs.
Proof.
  induction specs as [|spec specs IH]; simpl; [reflexivity|].
  pose proof (create_instruments_slots meter otel_meter spec) as H.
  destruct (_create_instruments meter otel_meter spec) as [t spec'].
  destruct (create_all meter otel_meter specs) as [ts specs'].
  simpl in *. subst. reflexivity.
Qed.

Lemma init_specs (meter : Meter) (specs : list MetricSpec)
    (otel_meter : option Meter) :
  _specs (snd (__init__ meter specs otel_meter))
    = map (fun spec =>
             set_otel_inst spec
               (Some (business_slot meter spec,
                      otel_slot meter (default meter otel_meter) spec)))
          specs.
Proof.
  unfold __init__.
  pose proof (create_all_slots meter (default meter otel_meter) specs) as H.
  destruct otel_meter as [om|]; simpl in *;
    destruct (create_all meter _ specs) as [t specs']; simpl in *;
    subst; reflexivity.
Qed.

End Slots.

(** ** Recording *)

Section Recording.
Import Registry Statements.

Lemma record_spec_returns (spec : MetricSpec) (d : gmap string pyval) :
  snd (record_spec spec d) = Normal tt.
Proof.
  unfold record_spec, try_except.
  destruct (record_body spec d) as [t [[]|e]]; reflexivity.
Qed.

Lemma record_spec_caught (spec : MetricSpec) (d : gmap string pyval) (e : exn) :
  snd (record_body spec d) = Raised e ->
  fst (record_spec spec d) = fst (record_body spec d) ++ [Log ERROR (name spec)].
Proof.
  unfold record_spec, try_except.
  destruct (record_body spec d) as [t [[]|e']]; simpl; [discriminate|reflexivity].
Qed.

(** The loop over a list of specs returns, and its trace is the traces of
    the iterations one after the other. *)
Lemma record_loop (specs : list MetricSpec) (d : gmap string pyval) :
  for_each specs (fun spec => record_spec spec d)
    = (concat (map (fun spec => fst (record_spec spec d)) specs), Normal tt).
Proof.
  induction specs as [|spec specs IH]; simpl; [reflexivity|].
  rewrite IH. pose proof (record_spec_returns spec d) as Hr.
  destruct (record_spec spec d) as [t r]. simpl in *. subst r. reflexivity.
Qed.

Example record_after_failure :
  record faulty_registry demo_data
    = ([CallValueFn "test_counter"; Add 0 1%R; Log DEBUG "test_counter";
        CallValueFn "broken"; Log ERROR "broken";
        CallValueFn "test_counter"; Add 0 1%R; Log DEBUG "test_counter"],
       Normal tt).
Proof. reflexivity. Qed.

Lemma instruments_of_nil (spec : MetricSpec) :
  instruments_of spec = [] ->
  _otel_inst spec = None \/ _otel_inst spec = Some (None, None).
Proof.
  unfold instruments_of.
  destruct (_otel_inst spec) as [[[a|] [b|]]|]; simpl; intros H;
    try discriminate; auto.
Qed.

Lemma record_body_skips (spec : MetricSpec) (d : gmap string pyval) :
  instruments_of spec = [] -> record_body spec d = ([], Normal tt).
Proof.
  intros H. unfold record_body.
  destruct (instruments_of_nil spec H) as [-> | ->]; reflexivity.
Qed.

(** With an instrument in some slot the body starts by calling [value_fn]. *)
Lemma record_body_calls (spec : MetricSpec) (d : gmap string pyval) :
  instruments_of spec <> [] ->
  record_body spec d =
    bind (call (CallValueFn (name spec)) (value_fn spec d))
         (fun val =>
            match val with
            | None => ret tt
            | Some v =>
                for_each (instruments_of spec)
                  (fun i => _record_to_instrument i spec v "")
            end).
Proof.
  intros H. unfold record_body, instruments_of in *.
  destruct (_otel_inst spec) as [[[a|] [b|]]|]; simpl in *;
    try congruence;
    destruct (value_fn spec d) as [[v|]|e]; simpl; try reflexivity;
    unfold _record_to_instrument;
    repeat match goal with
           | |- context [if ?c then _ else _] => destruct c
           end; simpl;
    repeat match goal with
           | |- context [inst_add ?i ?v] => destruct (inst_add i v) as [[]|?]; simpl
           | |- context [inst_record ?i ?v] => destruct (inst_record i v) as [[]|?]; simpl
           end; reflexivity.
Qed.

Lemma deliver_counter (spec : MetricSpec) (v : R) (insts : list Instrument) :
  instrument spec = "counter" ->
  Forall (fun i => inst_add i v = Normal tt) insts ->
  for_each insts (fun i => _record_to_instrument i spec v "")
    = (flat_map (fun i => [Add (inst_id i) v; Log DEBUG (name spec)]) insts,
       Normal tt).
Proof.
  intros Hc Hq. induction Hq as [|i insts Hi _ IH]; [reflexivity|].
  simpl. rewrite IH. unfold _record_to_instrument. rewrite Hc. simpl.
  rewrite Hi. reflexivity.
Qed.

Lemma deliver_histogram (spec : MetricSpec) (v : R) (insts : list Instrument) :
  instrument spec = "histogram" ->
  Forall (fun i => inst_record i v = Normal tt) insts ->
  for_each insts (fun i => _record_to_instrument i spec v "")
    = (flat_map (fun i => [Record_ (inst_id i) v; Log DEBUG (name spec)]) insts,
       Normal tt).
Proof.
  intros Hc Hq. induction Hq as [|i insts Hi _ IH]; [reflexivity|].
  simpl. rewrite IH. unfold _record_to_instrument. rewrite Hc. simpl.
  rewrite Hi. reflexivity.
Qed.

Lemma deliver_gauge (spec : MetricSpec) (v : R) (insts : list Instrument) :
  instrument spec = "gauge" ->
  for_each insts (fun i => _record_to_instrument i spec v "")
    = (map (fun _ => Log DEBUG (name spec)) insts, Normal tt).
Proof.
  intros Hc. induction insts as [|i insts IH]; [reflexivity|].
  simpl. rewrite IH. unfold _record_to_instrument. rewrite Hc. reflexivity.
Qed.

(** C1 (as documented, refuted).  A registry built from the counter of
    the tests and a spec of unknown instrument type ["summary"], both
    registered.  The second spec holds no instrument, and [record] does not
    call its value function at all: the trace has the counter's iteration
    only. *)
Lemma record_guard_counterexample :
  map name (_specs guard_registry) = ["test_counter"; "bytes_seen"] /\
  map instruments_of (_specs guard_registry) = [[quiet_instrument 0]; []] /\
  record guard_registry demo_data
    = ([CallValueFn "test_counter"; Add 0 1%R; Log DEBUG "test_counter"],
       Normal tt) /\
  ~ In (CallValueFn "bytes_seen") (fst (record guard_registry demo_data)).
Proof.
  split; [reflexivity|]. split; [reflexivity|]. split; [reflexivity|].
  change (fst (record guard_registry demo_data))
    with [CallValueFn "test_counter"; Add 0 1%R; Log DEBUG "test_counter"].
  simpl. intros [H|[H|[H|[]]]]; discriminate.
Qed.

(** The gauge branch of [_record_to_instrument] at work: the value function
    is called, the debug log record is written, and no call is made on the
    instrument the spec holds. *)
Example record_gauge_logs_only :
  map instruments_of (_specs gauge_registry) = [[quiet_instrument 12]; []] /\
  record gauge_registry demo_data
    = ([CallValueFn "queue_depth"; Log DEBUG "queue_depth"], Normal tt).
Proof. split; reflexivity. Qed.

(** C1 (amended).  For every spec registered in a registry and every frame
    data [d], the iteration of [record d] for that spec is part of the trace
    of [record d], and it does the following.  A spec that holds no
    instrument is skipped without calling its value function.  Otherwise
    [value_fn] is called on [d] first.  If it raises, the error is logged and
    no instrument is invoked; if it returns [None], no instrument is invoked.
    If it returns a number [v]: for a counter spec each instrument held
    receives [add(v)], for a histogram spec each one receives [record(v)]
    (business slot first, provided these calls do not raise). *)
Theorem record_delivers (self : TelemetryRegistry) (d : gmap string pyval)
    (before after : list MetricSpec) (spec : MetricSpec) :
  _specs self = before ++ spec :: after ->
  (exists t_before t_after : list event,
     fst (record self d) = t_before ++ fst (record_spec spec d) ++ t_after) /\
  (instruments_of spec = [] -> fst (record_spec spec d) = []) /\
  (instruments_of spec <> [] ->
     (forall e : exn,
        value_fn spec d = Raised e ->
        fst (record_spec spec d)
          = [CallValueFn (name spec); Log ERROR (name spec)]) /\
     (value_fn spec d = Normal None ->
        fst (record_spec spec d) = [CallValueFn (name spec)]) /\
     (forall v : R,
        value_fn spec d = Normal (Some v) ->
        (instrument spec = "counter" ->
         Forall (fun i => inst_add i v = Normal tt) (instruments_of spec) ->
         fst (record_spec spec d)
           = CallValueFn (name spec)
             :: flat_map (fun i => [Add (inst_id i) v; Log DEBUG (name spec)])
                         (instruments_of spec)) /\
        (instrument spec = "histogram" ->
         Forall (fun i => inst_record i v = Normal tt) (instruments_of spec) ->
         fst (record_spec spec d)
           = CallValueFn (name spec)
             :: flat_map (fun i => [Record_ (inst_id i) v; Log DEBUG (name spec)])
                         (instruments_of spec)))).
Proof.
  intros Hsplit. split; [|split].
  - unfold record. rewrite Hsplit, record_loop. simpl.
    rewrite map_app, concat_app. simpl. eauto.
  - intros Hnil. unfold record_spec. rewrite record_body_skips by exact Hnil.
    reflexivity.
  - intros Hne. unfold record_spec. rewrite record_body_calls by exact Hne.
    split; [|split].
    + intros e ->. reflexivity.
    + intros ->. reflexivity.
    + intros v ->. split.
      * intros Hc Hq. simpl. rewrite deliver_counter by assumption. reflexivity.
      * intros Hc Hq. simpl. rewrite deliver_histogram by assumption. reflexivity.
Qed.

Lemma record_delivers_witness :
  _specs test_registry = [test_counter_registered] ++ test_histogram_registered :: [] /\
  fst (record_spec test_histogram_registered demo_data)
    = [CallValueFn "test_histogram"; Record_ 1 3%R; Log DEBUG "test_histogram"].
Proof.
  split; [reflexivity|].
  destruct (record_delivers test_registry demo_data
              [test_counter_registered] [] test_histogram_registered eq_refl)
    as (_ & _ & Hcalled).
  destruct (Hcalled ltac:(discriminate)) as (_ & _ & Hv).
  destruct (Hv 3%R eq_refl) as (_ & Hh).
  apply Hh; [reflexivity|]. repeat constructor.
Defined.

Lemma record_includes (self : TelemetryRegistry) (d : gmap string pyval)
    (spec : MetricSpec) (ev : event) :
  In spec (_specs self) ->
  In ev (fst (record_spec spec d)) ->
  In ev (fst (record self d)).
Proof.
  intros Hs Hev. unfold record. rewrite record_loop. simpl.
  apply in_concat. exists (fst (record_spec spec d)). split; [|exact Hev].
  apply in_map_iff. exists spec. split; [reflexivity|exact Hs].
Qed.

Lemma record_spec_counter (spec : MetricSpec) (d : gmap string pyval) (v : R) :
  instruments_of spec <> [] ->
  value_fn spec d = Normal (Some v) ->
  instrument spec = "counter" ->
  Forall (fun i => inst_add i v = Normal tt) (instruments_of spec) ->
  fst (record_spec spec d)
    = CallValueFn (name spec)
      :: flat_map (fun i => [Add (inst_id i) v; Log DEBUG (name spec)])
                  (instruments_of spec).
Proof.
  intros Hne Hv Hc Hq. unfold record_spec.
  rewrite record_body_calls, Hv by exact Hne. simpl.
  rewrite deliver_counter by assumption. reflexivity.
Qed.

Lemma record_spec_histogram (spec : MetricSpec) (d : gmap string pyval) (v : R) :
  instruments_of spec <> [] ->
  value_fn spec d = Normal (Some v) ->
  instrument spec = "histogram" ->
  Forall (fun i => inst_record i v = Normal tt) (instruments_of spec) ->
  fst (record_spec spec d)
    = CallValueFn (name spec)
      :: flat_map (fun i => [Record_ (inst_id i) v; Log DEBUG (name spec)])
                  (instruments_of spec).
Proof.
  intros Hne Hv Hc Hq. unfold record_spec.
  rewrite record_body_calls, Hv by exact Hne. simpl.
  rewrite deliver_histogram by assumption. reflexivity.
Qed.

Lemma in_strs_two (x a b : string) :
  in_strs x [a; b] = true <-> x = a \/ x = b.
Proof.
  unfold in_strs. simpl. rewrite !orb_true_iff, !String.eqb_eq.
  intuition discriminate.
Qed.

Lemma instruments_of_length (spec : MetricSpec) :
  (length (instruments_of spec) <= 2)%nat.
Proof.
  unfold instruments_of.
  destruct (_otel_inst spec) as [[[a|] [b|]]|]; simpl; lia.
Qed.

(** C4 (as documented, refuted).  Two specs for both targets, registered
    with meters that never fail.  The histogram without boundaries asks for
    a single bucket: generating its boundaries raises, the error is logged,
    and both of its slots stay empty although its target is ["both"]; the
    counter next to it has both slots filled.  [record] then reaches the
    counter's two instruments only. *)
Lemma slots_counterexample :
  map target [box_area; dual_counter] = ["both"; "both"] /\
  map _otel_inst (_specs dual_registry)
    = [Some (None, None);
       Some (Some (quiet_instrument 0), Some (quiet_instrument 10))] /\
  record dual_registry demo_data
    = ([CallValueFn "dual_counter";
        Add 0 1%R; Log DEBUG "dual_counter";
        Add 10 1%R; Log DEBUG "dual_counter"], Normal tt).
Proof. repeat split; reflexivity. Qed.

(** C4 (amended).  After construction every registered spec holds the
    two-slot list, hence zero, one or two instruments.  The business slot
    holds the instrument made by the business meter when the target is
    ["openlineage"] or ["both"] and such an instrument could be made, and is
    empty otherwise; the OTEL slot holds the instrument made by the OTEL
    meter ([otel_meter], or the business meter when none is given) when the
    target is ["otel"] or ["both"], filling the business slot did not raise
    and such an instrument could be made, and is empty otherwise.  So when
    both meters can make the instrument, each slot is filled exactly when
    its target is asked for.  [record] then hands a number returned by the
    value function to every filled slot of a counter spec by [add] and of a
    histogram spec by [record], as long as these calls do not raise. *)
Theorem slots_follow_targets (meter : Meter) (specs : list MetricSpec)
    (otel_meter : option Meter) (d : gmap string pyval) :
  let self := snd (__init__ meter specs otel_meter) in
  let om := default meter otel_meter in
  Forall2
    (fun spec registered : MetricSpec =>
       registered
         = set_otel_inst spec
             (Some (business_slot meter spec, otel_slot meter om spec)) /\
       (length (instruments_of registered) <= 2)%nat /\
       (is_Some (made meter spec "OpenLineage") ->
        is_Some (made om spec "OTEL") ->
        (is_Some (business_slot meter spec)
           <-> target spec = "openlineage" \/ target spec = "both") /\
        (is_Some (otel_slot meter om spec)
           <-> target spec = "otel" \/ target spec = "both")) /\
       (forall (v : R) (i : Instrument),
          value_fn spec d = Normal (Some v) ->
          In i (instruments_of registered) ->
          (instrument spec = "counter" ->
           Forall (fun j => inst_add j v = Normal tt)
                  (instruments_of registered) ->
           In (Add (inst_id i) v) (fst (record self d))) /\
          (instrument spec = "histogram" ->
           Forall (fun j => inst_record j v = Normal tt)
                  (instruments_of registered) ->
           In (Record_ (inst_id i) v) (fst (record self d)))))
    specs (_specs self).
Proof.
  intros self om.
  assert (Hspecs : _specs self
            = map (fun spec =>
                     set_otel_inst spec
                       (Some (business_slot meter spec,
                              otel_slot meter om spec))) specs)
    by apply init_specs.
  rewrite Hspecs. apply Forall2_fmap_r, Forall_Forall2_diag.
  apply List.Forall_forall. intros spec Hin.
  set (registered := set_otel_inst spec _).
  assert (Hreg : In registered (_specs self)).
  { rewrite Hspecs. apply in_map_iff. exists spec. auto. }
  split; [reflexivity|]. split; [apply instruments_of_length|]. split.
  - clear Hreg. subst registered.
    intros Hm Hom. unfold business_slot, otel_slot, made in Hm, Hom |- *.
    rewrite <- !in_strs_two.
    destruct (in_strs (target spec) ["openlineage"; "both"]);
      destruct (in_strs (target spec) ["otel"; "both"]);
      destruct (snd (_create_instrument meter spec "OpenLineage")) as [[?|]|?];
      simpl in *; try (destruct Hm; discriminate);
      destruct (snd (_create_instrument om spec "OTEL")) as [[?|]|?];
      simpl in *; try (destruct Hom; discriminate);
      split; split; intros H; try discriminate;
      try (destruct H; discriminate); eauto.
  - intros v i Hv Hi. fold registered in Hi |- *.
    assert (Hne : instruments_of registered <> []).
    { intros Hnil. rewrite Hnil in Hi. destruct Hi. }
    split; intros Hk Hq.
    + apply (record_includes self d registered); [exact Hreg|].
      rewrite (record_spec_counter registered d v) by assumption.
      right. apply in_flat_map. exists i. split; [exact Hi|]. left. reflexivity.
    + apply (record_includes self d registered); [exact Hreg|].
      rewrite (record_spec_histogram registered d v) by assumption.
      right. apply in_flat_map. exists i. split; [exact Hi|]. left. reflexivity.
Qed.

(** The dual-target counter of the tests: both meters make a counter, the
    value 1 reaches both. *)
Example dual_target_recording :
  let self := snd (__init__ (quiet_meter 0 0) [dual_counter]
                            (Some (quiet_meter 1 10))) in
  map instruments_of (_specs self)
    = [[quiet_instrument 0; quiet_instrument 10]] /\
  record self demo_data
    = ([CallValueFn "dual_counter";
        Add 0 1%R; Log DEBUG "dual_counter";
        Add 10 1%R; Log DEBUG "dual_counter"], Normal tt).
Proof. split; reflexivity. Qed.

End Recording.

(** ** What [record] lets through *)

Section Interruption.
Import Registry Statements Interrupts.









(** An instance of [Exception] in the first of three counters: it is
    logged and the two others are still processed, also when the last one
    is then interrupted. *)
Example record_after_exception :
  let failing :=
    {| name := "failing"; instrument := "counter";
       value_fn := fun _ => Raises (Exc (RuntimeError "boom"));
       export_mode := "aggregated"; target := "openlineage";
       boundaries := None; num_buckets := 10;
       _otel_inst := Some (Some (of_instrument (quiet_instrument 0)), None) |} in
  let self :=
    {| _specs := [failing; of_spec test_counter_registered; interrupted];
       _meter := quiet_meter 0 0; _otel_meter := quiet_meter 1 10 |} in
  record self demo_data
    = ([CallValueFn "failing"; Log ERROR "failing";
        CallValueFn "test_counter"; Add 0 1%R; Log DEBUG "test_counter";
        CallValueFn "interrupted"], Raises (Base KeyboardInterrupt)).
Proof. reflexivity. Qed.

(** *** Agreement with the embedding of [Registry]

    On specs and instruments that raise instances of [Exception] only, the
    two embeddings of [record] do the same. *)

Lemma of_M_bind {A B : Type} (m : Registry.M A) (k : A -> Registry.M B) :
  of_M (Registry.bind m k) = bind (of_M m) (fun a => of_M (k a)).
Proof.
  destruct m as [t [a|e]]; unfold of_M; simpl; [|reflexivity].
  destruct (k a) as [t' r]. reflexivity.
Qed.

Lemma record_to_instrument_of (i : Registry.Instrument)
    (spec : Registry.MetricSpec) (v : R) (tn : string) :
  _record_to_instrument (of_instrument i) (of_spec spec) v tn
    = of_M (Registry._record_to_instrument i spec v tn).
Proof.
  unfold _record_to_instrument, Registry._record_to_instrument. simpl.
  repeat match goal with
         | |- context [if ?b then _ else _] => destruct b
         end; try reflexivity.
  - destruct (Registry.inst_add i v) as [[]|e]; reflexivity.
  - destruct (Registry.inst_record i v) as [[]|e]; reflexivity.
Qed.

Lemma record_body_of (spec : Registry.MetricSpec) (d : gmap string pyval) :
  record_body (of_spec spec) d = of_M (Registry.record_body spec d).
Proof.
  unfold record_body, Registry.record_body. simpl.
  destruct (Registry._otel_inst spec) as [[a b]|]; [|reflexivity].
  destruct a as [a|], b as [b|]; simpl; try reflexivity;
    destruct (Registry.value_fn spec d) as [[v|]|e]; try reflexivity;
    unfold bind, Registry.bind, Registry.call, call; simpl;
    rewrite ?record_to_instrument_of;
    repeat match goal with
           | |- context [Registry._record_to_instrument ?i ?s ?v ?t] =>
               destruct (Registry._record_to_instrument i s v t) as [? [[]|?]];
               simpl
           end; reflexivity.
Qed.

Lemma record_spec_of (spec : Registry.MetricSpec) (d : gmap string pyval) :
  record_spec (of_spec spec) d = of_M (Registry.record_spec spec d).
Proof.
  unfold record_spec, Registry.record_spec. rewrite record_body_of.
  destruct (Registry.record_body spec d) as [t [[]|e]]; reflexivity.
Qed.

Lemma record_of_registry (self : Registry.TelemetryRegistry)
    (d : gmap string pyval) :
  record (of_registry self) d = of_M (Registry.record self d).
Proof.
  unfold record, Registry.record. simpl.
  induction (Registry._specs self) as [|spec specs IH]; [reflexivity|].
  simpl. rewrite of_M_bind, record_spec_of, IH. reflexivity.
Qed.

End Interruption.

(** ** The allowlist *)

Section Allowlist.
Import Config Statements.

Lemma str_truthy_iff (s : string) : str_truthy s = true <-> s <> "".
Proof. destruct s; simpl; split; congruence. Qed.

Lemma parse_env_elem (env : string) (a : atom) :
  a ∈ parse_env env <->
  exists entry : string,
    In entry (split "," env) /\ strip entry <> "" /\ a = AStr (strip entry).
Proof.
  unfold parse_env. rewrite elem_of_list_to_set.
  change (map ?f ?l) with (f <$> l). rewrite list_elem_of_fmap.
  split.
  - intros (entry & -> & Hin). apply list_elem_of_filter in Hin as [Ht Hin].
    exists entry. rewrite <- list_elem_of_In, <- str_truthy_iff. auto.
  - intros (entry & Hin & Hne & ->). exists entry. split; [reflexivity|].
    apply list_elem_of_filter. rewrite list_elem_of_In, str_truthy_iff. auto.
Qed.

Lemma parse_env_empty : parse_env "" = ∅.
Proof. reflexivity. Qed.

(** With the variable set, what is read from the environment is what
    [parse_env] gives, also for the empty string. *)
Lemma read_env_set (w : World) (env : string) :
  getenv w "OF_SAFE_METRICS" = Some env ->
  read_env_allowlist w = parse_env env.
Proof.
  intros H. unfold read_env_allowlist. rewrite H.
  destruct env; [symmetry; apply parse_env_empty|reflexivity].
Qed.

Example read_allowlist_env_with_spaces :
  snd (read_allowlist (env_world "metric1, metric2 , metric3"))
    = {[ AStr "metric1"; AStr "metric2"; AStr "metric3" ]}.
Proof. vm_compute. reflexivity. Qed.

(** White space is what [str.strip()] takes it to be: a no-break space
    (code point 160) in front of an entry is stripped as well. *)
Example read_allowlist_no_break_space :
  snd (read_allowlist (env_world (String (ascii_of_nat 160) "cpu,mem")))
    = {[ AStr "cpu"; AStr "mem" ]}.
Proof. vm_compute. reflexivity. Qed.

(** C8 (as documented, refuted).  [OF_SAFE_METRICS] is set to ["cpu,mem"]
    and [OF_SAFE_METRICS_FILE] names a readable file with
    [safe_metrics: [fps]]: the set returned is the file's, not the set of
    the comma-separated entries. *)
Lemma allowlist_env_counterexample :
  getenv file_world "OF_SAFE_METRICS" = Some "cpu,mem" /\
  read_allowlist file_world = ([], {[ AStr "fps" ]}) /\
  parse_env "cpu,mem" = {[ AStr "cpu"; AStr "mem" ]} /\
  snd (read_allowlist file_world) <> parse_env "cpu,mem".
Proof.
  split; [reflexivity|]. split; [vm_compute; reflexivity|].
  split; [vm_compute; reflexivity|].
  assert (Hfile : snd (read_allowlist file_world) = {[ AStr "fps" ]})
    by (vm_compute; reflexivity).
  intros H. assert (Hin : AStr "cpu" ∈ snd (read_allowlist file_world)).
  { rewrite H. apply parse_env_elem. exists "cpu".
    split; [left; reflexivity|]. split; [discriminate|reflexivity]. }
  rewrite Hfile in Hin. apply elem_of_singleton in Hin. discriminate.
Qed.

Lemma read_allowlist_without_file (w : World) :
  getenv w "OF_SAFE_METRICS_FILE" = None \/
  getenv w "OF_SAFE_METRICS_FILE" = Some "" \/
  (exists (path : string) (e : exn),
     getenv w "OF_SAFE_METRICS_FILE" = Some path /\
     read_file_allowlist w path = Raised e) ->
  snd (read_allowlist w) = read_env_allowlist w.
Proof.
  unfold read_allowlist.
  intros [-> | [-> | (path & e & -> & Hr)]]; try reflexivity.
  destruct (str_truthy path); [|reflexivity]. rewrite Hr. reflexivity.
Qed.

(** C8 (amended).  [read_allowlist()] returns the empty set when neither
    [OF_SAFE_METRICS_FILE] nor [OF_SAFE_METRICS] is set.  When
    [OF_SAFE_METRICS] is set to a comma-separated string and the file is out
    of play ([OF_SAFE_METRICS_FILE] unset or empty, or reading the allowlist
    from the file raises), it returns the set of the comma-separated entries
    with surrounding whitespace stripped and empty entries dropped. *)
Theorem allowlist_from_env (w : World) :
  (getenv w "OF_SAFE_METRICS_FILE" = None ->
   getenv w "OF_SAFE_METRICS" = None ->
   read_allowlist w = ([], ∅)) /\
  (forall env : string,
     getenv w "OF_SAFE_METRICS" = Some env ->
     getenv w "OF_SAFE_METRICS_FILE" = None \/
     getenv w "OF_SAFE_METRICS_FILE" = Some "" \/
     (exists (path : string) (e : exn),
        getenv w "OF_SAFE_METRICS_FILE" = Some path /\
        read_file_allowlist w path = Raised e) ->
     forall a : atom,
       a ∈ snd (read_allowlist w) <->
       exists entry : string,
         In entry (split "," env) /\
         strip entry <> "" /\
         a = AStr (strip entry)).
Proof.
  split.
  - intros Hf He. unfold read_allowlist, read_env_allowlist.
    rewrite Hf, He. reflexivity.
  - intros env He Hfile a.
    rewrite (read_allowlist_without_file w Hfile), (read_env_set w env He).
    apply parse_env_elem.
Qed.

Lemma allowlist_from_env_witness :
  AStr "metric2" ∈ snd (read_allowlist (env_world "metric1, metric2 , metric3")).
Proof.
  apply (proj2 (allowlist_from_env (env_world "metric1, metric2 , metric3"))
           "metric1, metric2 , metric3" eq_refl (or_introl eq_refl)).
  exists " metric2 ". split; [right; left; reflexivity|].
  split; [discriminate|reflexivity].
Defined.

(** C10 (as documented, refuted).  Both variables are set and the file is
    empty.  Opening it succeeds and so does parsing it, to [None]; looking up
    [safe_metrics] then raises, a warning is printed, and the allowlist is
    taken from [OF_SAFE_METRICS]. *)
Lemma allowlist_file_counterexample :
  getenv empty_file_world "OF_SAFE_METRICS_FILE"
    = Some "/etc/openfilter/safe.yaml" /\
  open_read empty_file_world "/etc/openfilter/safe.yaml" = Normal "" /\
  yaml_safe_load empty_file_world "" = Normal (YAtom ANone) /\
  read_allowlist empty_file_world
    = ([("/etc/openfilter/safe.yaml", AttributeError)],
       {[ AStr "cpu"; AStr "mem" ]}).
Proof.
  split; [reflexivity|]. split; [reflexivity|]. split; [reflexivity|].
  vm_compute. reflexivity.
Qed.

(** C10 (amended).  When both [OF_SAFE_METRICS_FILE] (non-empty) and
    [OF_SAFE_METRICS] are set, [read_allowlist()] returns the set built from
    the [safe_metrics] entry of the file (the empty set when the entry is
    absent), whatever the environment variable holds, if the file can be
    opened, parses, is a mapping and that entry can be made a set.  If any
    of these steps raises (opening, parsing, a document that is not a
    mapping, an entry that is no collection of hashable values) a warning is
    printed and the allowlist is parsed from [OF_SAFE_METRICS]. *)
Theorem allowlist_file_first (w : World) (path env : string) :
  getenv w "OF_SAFE_METRICS_FILE" = Some path ->
  path <> "" ->
  getenv w "OF_SAFE_METRICS" = Some env ->
  match open_read w path with
  | Raised e => read_allowlist w = ([(path, e)], parse_env env)
  | Normal f =>
      match yaml_safe_load w f with
      | Raised e => read_allowlist w = ([(path, e)], parse_env env)
      | Normal (YMap bindings) =>
          match py_set (default (YSeq [])
                          (dict_lookup bindings (AStr "safe_metrics"))) with
          | Normal allowed => read_allowlist w = ([], allowed)
          | Raised e => read_allowlist w = ([(path, e)], parse_env env)
          end
      | Normal _ =>
          read_allowlist w = ([(path, AttributeError)], parse_env env)
      end
  end.
Proof.
  intros Hf Hp He. unfold read_allowlist. rewrite Hf.
  apply str_truthy_iff in Hp. rewrite Hp.
  rewrite (read_env_set w env He).
  unfold read_file_allowlist, and_then.
  destruct (open_read w path) as [f|e]; [|reflexivity].
  destruct (yaml_safe_load w f) as [[a|items|bindings]|e]; try reflexivity.
  unfold get.
  destruct (py_set (default (YSeq []) (dict_lookup bindings (AStr "safe_metrics"))))
    as [allowed|e] eqn:Hset;
    destruct (dict_lookup bindings (AStr "safe_metrics"));
    simpl in Hset |- *; rewrite ?Hset; try reflexivity; congruence.
Qed.

Lemma allowlist_file_first_witness :
  read_allowlist file_world = ([], {[ AStr "fps" ]}).
Proof.
  pose proof (allowlist_file_first file_world "/etc/openfilter/safe.yaml"
                "cpu,mem" eq_refl ltac:(discriminate) eq_refl) as H.
  simpl in H. rewrite H. f_equal.
Defined.

End Allowlist.

(** ** The filter worker's side channels and configuration *)

Section WorkerProperties.
Import Worker Statements.












(** The two tests of the [_filter] topic: an input with [meta.id] 42, and
    two inputs without metadata. *)
Example filter_topic_tests :
  let with_id := {| meta := {[ "id" := SInt 42 ]}; data := ∅ |} in
  let without := {| meta := ∅; data := ∅ |} in
  snd (run_ticks initial_worker [[("main", with_id)]]) = [filter_frame 42] /\
  snd (run_ticks initial_worker [[("main", without)]; [("main", without)]])
    = [filter_frame 0; filter_frame 1] /\
  snd (run_ticks initial_worker
         [[("main", without)]; [("aux", without); ("main", with_id)];
          [("main", without)]])
    = [filter_frame 0; filter_frame 42; filter_frame 1].
Proof. repeat split; reflexivity. Qed.

(** C6.  Every [_metrics] frame, whatever the sample and the extra metrics
    merged into it, has all nine of ts, fps, cpu, mem, lat_in, lat_out,
    uptime_count, frame_count and megapx_count among the keys of its
    data. *)
Theorem metrics_frame_keys (s : MetricsSample)
    (extra_metrics : gmap string scalar) :
  Forall (fun key => key ∈ dom (data (metrics_frame s extra_metrics)))
         ["ts"; "fps"; "cpu"; "mem"; "lat_in"; "lat_out";
          "uptime_count"; "frame_count"; "megapx_count"].
Proof.
  repeat constructor;
    apply elem_of_dom; unfold metrics_frame; cbn [data];
    apply lookup_union_is_Some; right; eexists; reflexivity.
Qed.

Lemma normalize_field_idempotent (key : string) (v : cfgval) :
  normalize_field key (normalize_field key v) = normalize_field key v.
Proof.
  unfold normalize_field.
  destruct (in_strs key ["sources"; "outputs"; "outputs_required"]).
  - destruct v as [[]| | |]; reflexivity.
  - destruct (String.eqb key "extra_metrics"); [|reflexivity].
    destruct v; reflexivity.
Qed.

(** C7.  Normalizing a configuration twice equals normalizing it once, for
    a field-name to value map as for a record: feeding the record that
    [normalize_config] returns back to it gives the same record. *)
Theorem normalize_config_idempotent (C : config_source) :
  normalize_config (FromRecord (normalize_config C)) = normalize_config C.
Proof.
  unfold normalize_config. cbn [fields]. f_equal.
  apply map_eq. intros key. rewrite !map_lookup_imap.
  destruct ((match C with FromMap m => m | FromRecord c => fields c end) !! key)
    as [v|]; simpl; [|reflexivity].
  rewrite normalize_field_idempotent. reflexivity.
Qed.

(** [test_normalize_config]: the map normalizes to the expected record,
    which is its own normal form. *)
Example test_normalize_config :
  normalize_config (FromMap scfg) = dcfg /\
  normalize_config (FromRecord dcfg) = dcfg.
Proof. split; vm_compute; reflexivity. Qed.

End WorkerProperties.

(** ** More on [generate_histogram_buckets] *)

Section BucketsMore.
Import Registry Statements Observations.

Lemma generate_histogram_buckets_normal (N : Z) (min_val max_val : R) :
  2 <= N -> (0 < max_val)%R ->
  generate_histogram_buckets N min_val max_val
    = Normal (log_spaced N (effective_min min_val) max_val).
Proof.
  intros HN Hmax. unfold generate_histogram_buckets, effective_min.
  destruct (Z.ltb_spec N 2) as [?|_]; [lia|].
  pose proof (effective_min_pos min_val) as Hpos.
  set (m := if Rle_dec min_val 0 then (0.1)%R else min_val) in *.
  unfold math_log.
  destruct (Rle_dec m 0) as [?|_]; [lra|].
  destruct (Rle_dec max_val 0) as [?|_]; [lra|].
  reflexivity.
Qed.

Lemma generate_histogram_buckets_inv (N : Z) (min_val max_val : R)
    (bs : list R) :
  generate_histogram_buckets N min_val max_val = Normal bs ->
  2 <= N /\ (0 < max_val)%R /\
  bs = log_spaced N (effective_min min_val) max_val.
Proof.
  intros Hgen.
  assert (HN : 2 <= N).
  { unfold generate_histogram_buckets in Hgen.
    destruct (Z.ltb_spec N 2); [discriminate|lia]. }
  assert (Hmax : (0 < max_val)%R).
  { destruct (Rle_dec max_val 0) as [Hle|Hgt]; [|lra].
    exfalso. revert Hgen. unfold generate_histogram_buckets, math_log.
    destruct (Z.ltb_spec N 2); [discriminate|].
    destruct (Rle_dec _ 0); [discriminate|].
    destruct (Rle_dec max_val 0); [discriminate|contradiction]. }
  rewrite generate_histogram_buckets_normal in Hgen by assumption.
  injection Hgen as <-. auto.
Qed.

(** X1.  [generate_histogram_buckets] raises a [ValueError] when fewer than
    two buckets are asked for, whatever the domain, and when two or more are
    asked for over a domain whose upper end is zero or negative.  Whenever
    it returns a list, at least two buckets were asked for and the list has
    one boundary less than there are buckets. *)
Theorem generate_histogram_buckets_raises (N : Z) (min_val max_val : R) :
  (N < 2 ->
   generate_histogram_buckets N min_val max_val = Raised ValueError) /\
  (2 <= N -> (max_val <= 0)%R ->
   generate_histogram_buckets N min_val max_val = Raised ValueError) /\
  (forall bs : list R,
     generate_histogram_buckets N min_val max_val = Normal bs ->
     2 <= N /\ Z.of_nat (length bs) = N - 1).
Proof.
  split; [|split].
  - intros Hlt. unfold generate_histogram_buckets.
    destruct (Z.ltb_spec N 2); [reflexivity|lia].
  - intros HN Hmax. pose proof (effective_min_pos min_val) as Hpos.
    unfold generate_histogram_buckets, math_log.
    destruct (Z.ltb_spec N 2); [lia|].
    destruct (Rle_dec (if Rle_dec min_val 0 then 0.1%R else min_val) 0)
      as [?|_]; [lra|].
    destruct (Rle_dec max_val 0); [reflexivity|contradiction].
  - intros bs Hgen.
    apply generate_histogram_buckets_inv in Hgen as (HN & _ & ->).
    split; [exact HN|].
    unfold log_spaced. rewrite length_map, length_seq. lia.
Qed.

End BucketsMore.

(** ** More on construction *)

Section ConstructionMore.
Import Registry Statements Observations.

(** The histogram branch of [_create_instrument] in one piece. *)
Lemma create_histogram_form (meter : Meter) (spec : MetricSpec) (tn : string) :
  instrument spec = "histogram" ->
  _create_instrument meter spec tn =
    match boundaries spec with
    | Some bs =>
        ([Log INFO (name spec);
          CreateHistogram (meter_id meter) (name spec) bs],
         created (create_histogram meter (name spec) bs))
    | None =>
        if num_buckets spec <? 2 then ([], Raised ValueError)
        else
          let bs := log_spaced (num_buckets spec) 0.1%R
                               (inferred_max (name spec)) in
          ([Log INFO (name spec);
            CreateHistogram (meter_id meter) (name spec) bs],
           created (create_histogram meter (name spec) bs))
    end.
Proof.
  intros Hi. unfold _create_instrument. rewrite Hi.
  change ("histogram" =? "counter")%string with false.
  change ("histogram" =? "histogram")%string with true. cbv iota.
  destruct (boundaries spec) as [bs|].
  - unfold bind, emit, call, ret, created. simpl.
    destruct (create_histogram meter (name spec) bs); reflexivity.
  - match goal with
    | |- context [bind ([], ?g) _] =>
        assert (Hgen : g = generate_histogram_buckets (num_buckets spec) 0%R
                             (inferred_max (name spec)))
    end.
    { unfold inferred_max.
      repeat match goal with
             | |- context [if ?b then _ else _] => destruct b
             end; reflexivity. }
    rewrite Hgen. clear Hgen.
    destruct (Z.ltb_spec (num_buckets spec) 2) as [Hlt|Hge].
    + unfold generate_histogram_buckets.
      destruct (Z.ltb_spec (num_buckets spec) 2); [reflexivity|lia].
    + rewrite generate_from_zero by (auto using inferred_max_large).
      unfold bind, emit, call, ret, created. simpl.
      destruct (create_histogram meter (name spec) _); reflexivity.
Qed.

(** What a single [_create_instrument] does to the outside: at most one
    factory call, on the meter it was given, and no error log; an instrument
    is returned only after a factory call. *)
Lemma create_instrument_events (meter : Meter) (spec : MetricSpec)
    (tn : string) :
  Forall (fun ev => forall id, event_meter ev = Some id -> id = meter_id meter)
         (fst (_create_instrument meter spec tn)) /\
  (count is_create (fst (_create_instrument meter spec tn)) <= 1)%nat /\
  count is_error_log (fst (_create_instrument meter spec tn)) = 0%nat /\
  (is_Some (made meter spec tn) ->
   count is_create (fst (_create_instrument meter spec tn)) = 1%nat).
Proof.
  unfold made.
  destruct (String.eqb_spec (instrument spec) "histogram") as [Hh|Hh].
  - rewrite create_histogram_form by exact Hh.
    destruct (boundaries spec) as [bs|];
      [|destruct (num_buckets spec <? 2)]; cbv zeta;
      try destruct (create_histogram meter (name spec) _) as [i|e];
      unfold count; simpl; repeat split;
      try (repeat constructor; simpl; congruence);
      try lia; try (intros [? ?]; discriminate).
  - unfold _create_instrument.
    apply String.eqb_neq in Hh. rewrite Hh.
    destruct (String.eqb (instrument spec) "counter");
      [destruct (create_counter meter (name spec)) as [i|e]
      |destruct (String.eqb (instrument spec) "gauge");
        [destruct (create_observable_gauge meter (name spec)) as [i|e]|]];
      unfold count; simpl; repeat split;
      try (repeat constructor; simpl; congruence);
      try lia; try (intros [? ?]; discriminate).
Qed.

(** The events of [_create_instruments]: the business slot is tried first;
    if that raises, the error is logged and the OTEL slot is not tried. *)
Lemma create_instruments_trace (meter otel_meter : Meter) (spec : MetricSpec) :
  fst (_create_instruments meter otel_meter spec)
    = (if in_strs (target spec) ["openlineage"; "both"]
       then fst (_create_instrument meter spec "OpenLineage") else [])
      ++ (if (in_strs (target spec) ["openlineage"; "both"]
              && raisesb (snd (_create_instrument meter spec "OpenLineage")))%bool
          then [Log ERROR (name spec)]
          else if in_strs (target spec) ["otel"; "both"]
               then fst (_create_instrument otel_meter spec "OTEL")
                    ++ (if raisesb (snd (_create_instrument otel_meter spec "OTEL"))
                        then [Log ERROR (name spec)] else [])
               else []).
Proof.
  unfold _create_instruments.
  rewrite create_instrument_slots. cbn [target set_otel_inst name].
  destruct (in_strs (target spec) ["openlineage"; "both"]).
  - destruct (_create_instrument meter spec "OpenLineage") as [t0 [i0|e0]];
      cbn [bind ret snd fst raisesb andb negb set_slot0 set_slot1
           set_otel_inst target name _otel_inst];
      [|cbn; rewrite ?app_nil_r; reflexivity].
    destruct (in_strs (target spec) ["otel"; "both"]);
      [|destruct i0; cbn; rewrite ?app_nil_r; reflexivity].
    change (_create_instrument otel_meter _ "OTEL")
      with (_create_instrument otel_meter spec "OTEL").
    destruct (_create_instrument otel_meter spec "OTEL") as [t1 [i1|e1]];
      destruct i0; cbn; rewrite ?app_nil_r, <- ?app_assoc; reflexivity.
  - cbn [bind ret snd fst raisesb andb negb set_slot0 set_slot1
         set_otel_inst target name _otel_inst app].
    destruct (in_strs (target spec) ["otel"; "both"]); [|reflexivity].
    change (_create_instrument otel_meter _ "OTEL")
      with (_create_instrument otel_meter spec "OTEL").
    destruct (_create_instrument otel_meter spec "OTEL") as [t1 [i1|e1]];
      cbn; rewrite ?app_nil_r, <- ?app_assoc; reflexivity.
Qed.

Lemma create_all_trace (meter otel_meter : Meter) (specs : list MetricSpec) :
  fst (create_all meter otel_meter specs)
    = concat (map (fun spec => fst (_create_instruments meter otel_meter spec))
                  specs).
Proof.
  induction specs as [|spec specs IH]; simpl; [reflexivity|].
  destruct (_create_instruments meter otel_meter spec) as [t spec'].
  destruct (create_all meter otel_meter specs) as [ts specs'].
  simpl in *. rewrite IH. reflexivity.
Qed.

Lemma init_trace (meter : Meter) (specs : list MetricSpec)
    (otel_meter : option Meter) :
  fst (__init__ meter specs otel_meter)
    = match specs with
      | [] => []
      | _ :: _ => [Log INFO (join_names (map name specs))]
      end
      ++ concat (map (fun spec =>
                        fst (_create_instruments meter
                               (default meter otel_meter) spec))
                     specs).
Proof.
  unfold __init__.
  pose proof (create_all_trace meter (default meter otel_meter) specs) as H.
  destruct otel_meter as [om|]; simpl in *;
    destruct (create_all meter _ specs) as [t specs']; simpl in *;
    subst; destruct specs; reflexivity.
Qed.

Lemma count_app (p : event -> bool) (t1 t2 : list event) :
  count p (t1 ++ t2) = (count p t1 + count p t2)%nat.
Proof. unfold count. rewrite List.filter_app, length_app. reflexivity. Qed.

Lemma count_concat (p : event -> bool) (ts : list (list event)) :
  count p (concat ts) = list_sum (map (count p) ts).
Proof.
  induction ts as [|t ts IH]; simpl; [reflexivity|].
  rewrite count_app, IH. reflexivity.
Qed.

(** The factory call of [_create_instrument] is made for the spec's own
    metric name. *)
Lemma create_instrument_names (meter : Meter) (spec : MetricSpec)
    (tn : string) :
  Forall (fun ev => forall id, event_meter ev = Some id ->
                               event_metric ev = Some (name spec))
         (fst (_create_instrument meter spec tn)).
Proof.
  destruct (String.eqb_spec (instrument spec) "histogram") as [Hh|Hh].
  - rewrite create_histogram_form by exact Hh.
    destruct (boundaries spec) as [bs|];
      [|destruct (num_buckets spec <? 2)]; cbv zeta;
      try destruct (create_histogram meter (name spec) _) as [i|e];
      simpl; repeat constructor; simpl; congruence.
  - unfold _create_instrument.
    apply String.eqb_neq in Hh. rewrite Hh.
    destruct (String.eqb (instrument spec) "counter");
      [destruct (create_counter meter (name spec)) as [i|e]
      |destruct (String.eqb (instrument spec) "gauge");
        [destruct (create_observable_gauge meter (name spec)) as [i|e]|]];
      simpl; repeat constructor; simpl; congruence.
Qed.

(** X6.  Routing of factory calls at construction.  After the registration
    log record, the trace of the constructor is the traces of
    [_create_instruments] for the specs it was given, in their order.  In
    the part of a spec, every factory call is made for that spec's own
    metric name, and either on the business meter with the spec's target
    being ["openlineage"] or ["both"], or on the OTEL meter (the business
    meter when no OTEL meter is given) with the spec's target being ["otel"]
    or ["both"]; so a spec with any other target causes no factory call. *)
Theorem factory_calls_follow_target (meter : Meter) (specs : list MetricSpec)
    (otel_meter : option Meter) :
  let om := default meter otel_meter in
  (exists header : list event,
     Forall (fun ev => event_meter ev = None) header /\
     fst (__init__ meter specs otel_meter)
       = header
         ++ concat (map (fun spec => fst (_create_instruments meter om spec))
                        specs)) /\
  (forall (spec : MetricSpec) (ev : event) (id : nat),
     In ev (fst (_create_instruments meter om spec)) ->
     event_meter ev = Some id ->
     event_metric ev = Some (name spec) /\
     ((id = meter_id meter /\
       (target spec = "openlineage" \/ target spec = "both")) \/
      (id = meter_id om /\
       (target spec = "otel" \/ target spec = "both")))).
Proof.
  intros om. split.
  - eexists. split; [|apply init_trace].
    destruct specs; repeat constructor.
  - intros spec ev id Hev Hid.
    rewrite create_instruments_trace in Hev.
    rewrite <- !in_strs_two.
    destruct (create_instrument_events meter spec "OpenLineage") as (Hm & _).
    destruct (create_instrument_events om spec "OTEL") as (Hom & _).
    pose proof (create_instrument_names meter spec "OpenLineage") as Hn.
    pose proof (create_instrument_names om spec "OTEL") as Hon.
    rewrite List.Forall_forall in Hm, Hom, Hn, Hon.
    apply in_app_or in Hev as [Hev|Hev].
    + destruct (in_strs (target spec) ["openlineage"; "both"]); [|destruct Hev].
      split; [eapply Hn; eassumption|].
      left. split; [eapply Hm; eassumption|reflexivity].
    + destruct (in_strs (target spec) ["openlineage"; "both"]
                && raisesb _)%bool.
      { destruct Hev as [<-|[]]. discriminate. }
      destruct (in_strs (target spec) ["otel"; "both"]); [|destruct Hev].
      apply in_app_or in Hev as [Hev|Hev].
      * split; [eapply Hon; eassumption|].
        right. split; [eapply Hom; eassumption|reflexivity].
      * destruct (raisesb _); [|destruct Hev].
        destruct Hev as [<-|[]]. discriminate.
Qed.

(** A gauge for the OTEL target and a spec of unknown instrument type for
    both: one factory call, on the OTEL meter, for the gauge. *)
Example factory_calls_example :
  List.filter is_create
    (fst (__init__ (quiet_meter 0 0) [queue_depth; bytes_seen]
                   (Some (quiet_meter 12 10))))
    = [CreateObservableGauge 12 "queue_depth"].
Proof. reflexivity. Qed.

Lemma create_instruments_counts (meter otel_meter : Meter) (spec : MetricSpec) :
  (length (instruments_of (snd (_create_instruments meter otel_meter spec)))
   <= count is_create (fst (_create_instruments meter otel_meter spec)))%nat /\
  (count is_create (fst (_create_instruments meter otel_meter spec)) <= 2)%nat /\
  (count is_error_log (fst (_create_instruments meter otel_meter spec)) <= 1)%nat.
Proof.
  rewrite create_instruments_slots, create_instruments_trace.
  unfold instruments_of, business_slot, otel_slot. cbn [_otel_inst set_otel_inst].
  destruct (create_instrument_events meter spec "OpenLineage")
    as (_ & Hc0 & He0 & Hm0).
  destruct (create_instrument_events otel_meter spec "OTEL")
    as (_ & Hc1 & He1 & Hm1).
  unfold made in *.
  destruct (in_strs (target spec) ["openlineage"; "both"]);
    destruct (in_strs (target spec) ["otel"; "both"]);
    destruct (snd (_create_instrument meter spec "OpenLineage")) as [[i0|]|e0];
    destruct (snd (_create_instrument otel_meter spec "OTEL")) as [[i1|]|e1];
    cbn [andb negb raisesb];
    rewrite ?count_app; unfold option_list; simpl;
    try specialize (Hm0 ltac:(eexists; reflexivity));
    try specialize (Hm1 ltac:(eexists; reflexivity));
    unfold count in *; simpl; repeat split; lia.
Qed.

(** X7.  The constructor makes at most two factory calls per spec, logs at
    most one error per spec, and every instrument a spec holds afterwards was
    obtained by a factory call of its own: the instruments held in total
    never outnumber the factory calls made. *)
Theorem factory_calls_bounded (meter : Meter) (specs : list MetricSpec)
    (otel_meter : option Meter) :
  let made_calls := count is_create (fst (__init__ meter specs otel_meter)) in
  let held :=
    flat_map instruments_of (_specs (snd (__init__ meter specs otel_meter))) in
  (length held <= made_calls)%nat /\
  (made_calls <= 2 * length specs)%nat /\
  (count is_error_log (fst (__init__ meter specs otel_meter))
   <= length specs)%nat.
Proof.
  cbv zeta. rewrite init_trace, !count_app, !count_concat.
  assert (Hspecs := create_all_slots meter (default meter otel_meter) specs).
  assert (Hreg : _specs (snd (__init__ meter specs otel_meter))
                 = map (fun spec =>
                          snd (_create_instruments meter
                                 (default meter otel_meter) spec)) specs).
  { rewrite init_specs. apply map_ext. intros spec.
    symmetry. apply create_instruments_slots. }
  rewrite Hreg. clear Hreg Hspecs.
  assert (H0 : forall p : event -> bool,
             (p = is_create \/ p = is_error_log) ->
             count p match specs with
                     | [] => []
                     | _ :: _ => [Log INFO (join_names (map name specs))]
                     end = 0%nat).
  { intros p [-> | ->]; destruct specs; reflexivity. }
  rewrite !H0 by auto. simpl Nat.add. clear H0.
  induction specs as [|spec specs IH]; simpl; [lia|].
  destruct (create_instruments_counts meter (default meter otel_meter) spec)
    as (H1 & H2 & H3).
  destruct IH as (IH1 & IH2 & IH3).
  rewrite length_app. lia.
Qed.

(** X8.  The constructor starts every spec from empty slots: whatever
    [_otel_inst] the specs carried before (for instance instruments of an
    earlier registry), the events of the constructor and the registry it
    leaves are the same. *)
Theorem stale_instruments_ignored (meter : Meter) (specs : list MetricSpec)
    (otel_meter : option Meter)
    (stale : MetricSpec -> option (option Instrument * option Instrument)) :
  __init__ meter (map (fun spec => set_otel_inst spec (stale spec)) specs)
           otel_meter
    = __init__ meter specs otel_meter.
Proof.
  unfold __init__.
  assert (Hall : create_all meter (default meter otel_meter)
                   (map (fun spec => set_otel_inst spec (stale spec)) specs)
                 = create_all meter (default meter otel_meter) specs).
  { induction specs as [|spec specs IH]; simpl; [reflexivity|].
    rewrite IH. reflexivity. }
  assert (Hnames : map name (map (fun spec => set_otel_inst spec (stale spec))
                                 specs) = map name specs).
  { rewrite map_map. reflexivity. }
  destruct otel_meter as [om|]; simpl in Hall |- *;
    rewrite Hall, Hnames; destruct specs; reflexivity.
Qed.

(** X9.  A histogram spec without explicit boundaries that asks for fewer
    than two buckets can never be instrumented: whatever the meters and the
    target, no factory is called for it, both slots stay empty, exactly one
    error is logged when the target names a slot (none otherwise), and
    [record] never calls its value function. *)
Theorem unbucketed_histogram_dropped (meter otel_meter : Meter)
    (spec : MetricSpec) (d : gmap string pyval) :
  instrument spec = "histogram" ->
  boundaries spec = None ->
  num_buckets spec < 2 ->
  let result := _create_instruments meter otel_meter spec in
  _otel_inst (snd result) = Some (None, None) /\
  count is_create (fst result) = 0%nat /\
  count is_error_log (fst result)
    = (if (in_strs (target spec) ["openlineage"; "both"]
           || in_strs (target spec) ["otel"; "both"])%bool
       then 1%nat else 0%nat) /\
  record_spec (snd result) d = ([], Normal tt).
Proof.
  intros Hi Hb Hn. cbv zeta.
  assert (Hraise : forall m tn,
            _create_instrument m spec tn = ([], Raised ValueError)).
  { intros m tn. rewrite create_histogram_form, Hb by exact Hi.
    destruct (Z.ltb_spec (num_buckets spec) 2); [reflexivity|lia]. }
  assert (Hslots : _otel_inst (snd (_create_instruments meter otel_meter spec))
                   = Some (None, None)).
  { rewrite create_instruments_slots. unfold business_slot, otel_slot, made.
    rewrite !Hraise. cbn [snd raisesb].
    destruct (in_strs (target spec) ["openlineage"; "both"]);
      destruct (in_strs (target spec) ["otel"; "both"]); reflexivity. }
  split; [exact Hslots|].
  rewrite create_instruments_trace, !Hraise. cbn [snd fst raisesb].
  split; [|split].
  - destruct (in_strs (target spec) ["openlineage"; "both"]);
      destruct (in_strs (target spec) ["otel"; "both"]); reflexivity.
  - destruct (in_strs (target spec) ["openlineage"; "both"]);
      destruct (in_strs (target spec) ["otel"; "both"]); reflexivity.
  - unfold record_spec, record_body. rewrite Hslots. reflexivity.
Qed.

Lemma unbucketed_histogram_dropped_witness :
  let result := _create_instruments (quiet_meter 0 0) (quiet_meter 1 10)
                                    box_area in
  _otel_inst (snd result) = Some (None, None) /\
  count is_create (fst result) = 0%nat /\
  count is_error_log (fst result)
    = (if (in_strs (target box_area) ["openlineage"; "both"]
           || in_strs (target box_area) ["otel"; "both"])%bool
       then 1%nat else 0%nat) /\
  record_spec (snd result) demo_data = ([], Normal tt).
Proof.
  apply (unbucketed_histogram_dropped (quiet_meter 0 0) (quiet_meter 1 10)
           box_area demo_data); [reflexivity|reflexivity|reflexivity].
Defined.

(** X10.  A spec whose instrument type is none of ["counter"],
    ["histogram"] and ["gauge"] is registered without any factory call and
    without an error: both slots stay empty, the only events are warnings
    (one per slot its target names), and [record] never calls its value
    function. *)
Theorem unknown_instrument_dropped (meter otel_meter : Meter)
    (spec : MetricSpec) (d : gmap string pyval) :
  instrument spec <> "counter" ->
  instrument spec <> "histogram" ->
  instrument spec <> "gauge" ->
  let result := _create_instruments meter otel_meter spec in
  _otel_inst (snd result) = Some (None, None) /\
  Forall (fun ev => ev = Log WARNING (name spec)) (fst result) /\
  length (fst result)
    = ((if in_strs (target spec) ["openlineage"; "both"] then 1 else 0)
       + (if in_strs (target spec) ["otel"; "both"] then 1 else 0))%nat /\
  record_spec (snd result) d = ([], Normal tt).
Proof.
  intros Hc Hh Hg. cbv zeta.
  assert (Hnone : forall m tn,
            _create_instrument m spec tn
              = ([Log WARNING (name spec)], Normal None)).
  { intros m tn. unfold _create_instrument.
    apply String.eqb_neq in Hc, Hh, Hg. rewrite Hc, Hh, Hg. reflexivity. }
  assert (Hslots : _otel_inst (snd (_create_instruments meter otel_meter spec))
                   = Some (None, None)).
  { rewrite create_instruments_slots. unfold business_slot, otel_slot, made.
    rewrite !Hnone. cbn [snd raisesb].
    destruct (in_strs (target spec) ["openlineage"; "both"]);
      destruct (in_strs (target spec) ["otel"; "both"]); reflexivity. }
  split; [exact Hslots|].
  rewrite create_instruments_trace, !Hnone. cbn [snd fst raisesb].
  split; [|split].
  - destruct (in_strs (target spec) ["openlineage"; "both"]);
      destruct (in_strs (target spec) ["otel"; "both"]);
      simpl; repeat constructor.
  - destruct (in_strs (target spec) ["openlineage"; "both"]);
      destruct (in_strs (target spec) ["otel"; "both"]); reflexivity.
  - unfold record_spec, record_body. rewrite Hslots. reflexivity.
Qed.

Lemma unknown_instrument_dropped_witness :
  let result := _create_instruments (quiet_meter 0 0) (quiet_meter 1 10)
                                    bytes_seen in
  _otel_inst (snd result) = Some (None, None) /\
  Forall (fun ev => ev = Log WARNING (name bytes_seen)) (fst result) /\
  length (fst result)
    = ((if in_strs (target bytes_seen) ["openlineage"; "both"] then 1 else 0)
       + (if in_strs (target bytes_seen) ["otel"; "both"] then 1 else 0))%nat /\
  record_spec (snd result) demo_data = ([], Normal tt).
Proof.
  apply (unknown_instrument_dropped (quiet_meter 0 0) (quiet_meter 1 10)
           bytes_seen demo_data); discriminate.
Defined.

End ConstructionMore.

(** ** More on recording *)

Section RecordingMore.
Import Registry Statements Observations.

(** What handing a value to the instruments of a spec can do: a call on one
    of these instruments, of the kind of the spec and with that value, or a
    debug log record; at most one call per instrument. *)
Lemma deliveries_events (spec : MetricSpec) (v : R) (insts : list Instrument) :
  let t := fst (for_each insts (fun i => _record_to_instrument i spec v "")) in
  Forall (fun ev =>
            ev = Log DEBUG (name spec) \/
            exists i : Instrument,
              In i insts /\
              ((instrument spec = "counter" /\ ev = Add (inst_id i) v) \/
               (instrument spec = "histogram" /\ ev = Record_ (inst_id i) v)))
         t /\
  (count is_instrument_call t <= length insts)%nat.
Proof.
  induction insts as [|i insts IH]; simpl.
  { split; [constructor|unfold count; simpl; lia]. }
  destruct IH as [IH1 IH2].
  assert (IH1' : Forall (fun ev =>
            ev = Log DEBUG (name spec) \/
            exists j : Instrument,
              In j (i :: insts) /\
              ((instrument spec = "counter" /\ ev = Add (inst_id j) v) \/
               (instrument spec = "histogram" /\ ev = Record_ (inst_id j) v)))
         (fst (for_each insts (fun i => _record_to_instrument i spec v "")))).
  { eapply List.Forall_impl; [|exact IH1]. intros ev [H|(j & Hj & H)]; [auto|].
    right. exists j. split; [right; exact Hj|exact H]. }
  destruct (for_each insts _) as [t r]. simpl in IH1', IH2.
  unfold _record_to_instrument, bind, call, emit, ret.
  assert (Hadd : instrument spec = "counter" ->
            (fun ev =>
               ev = Log DEBUG (name spec) \/
               exists j : Instrument,
                 In j (i :: insts) /\
                 ((instrument spec = "counter" /\ ev = Add (inst_id j) v) \/
                  (instrument spec = "histogram" /\ ev = Record_ (inst_id j) v)))
              (Add (inst_id i) v)).
  { intros Hc. right. exists i. split; [left; reflexivity|]. left. auto. }
  assert (Hrec : instrument spec = "histogram" ->
            (fun ev =>
               ev = Log DEBUG (name spec) \/
               exists j : Instrument,
                 In j (i :: insts) /\
                 ((instrument spec = "counter" /\ ev = Add (inst_id j) v) \/
                  (instrument spec = "histogram" /\ ev = Record_ (inst_id j) v)))
              (Record_ (inst_id i) v)).
  { intros Hh. right. exists i. split; [left; reflexivity|]. right. auto. }
  destruct (String.eqb_spec (instrument spec) "counter") as [Hc|Hc].
  - destruct (inst_add i v) as [[]|e]; simpl; unfold count in *; simpl;
      (split; [|lia]); repeat (constructor; auto).
  - destruct (String.eqb_spec (instrument spec) "histogram") as [Hh|Hh].
    + destruct (inst_record i v) as [[]|e]; simpl; unfold count in *; simpl;
        (split; [|lia]); repeat (constructor; auto).
    + destruct (String.eqb (instrument spec) "gauge"); simpl;
        unfold count in *; simpl; (split; [|lia]);
        repeat (constructor; auto); exact IH1'.
Qed.

(** The iteration of [record] for a spec that holds an instrument: the call
    of the value function, then what the deliveries do, then possibly one
    error log record. *)
Lemma record_spec_shape (spec : MetricSpec) (d : gmap string pyval) :
  instruments_of spec <> [] ->
  exists (rest : list event) (tail : list event),
    fst (record_spec spec d) = CallValueFn (name spec) :: rest ++ tail /\
    (tail = [] \/ tail = [Log ERROR (name spec)]) /\
    ((rest = []) \/
     exists v : R,
       value_fn spec d = Normal (Some v) /\
       rest = fst (for_each (instruments_of spec)
                     (fun i => _record_to_instrument i spec v ""))).
Proof.
  intros Hne. unfold record_spec. rewrite record_body_calls by exact Hne.
  unfold bind, call, try_except, emit, ret.
  destruct (value_fn spec d) as [[v|]|e] eqn:Hv; simpl.
  - destruct (for_each (instruments_of spec) _) as [t [[]|e]] eqn:Hf; simpl.
    + exists t, []. rewrite app_nil_r. split; [reflexivity|]. split; [auto|].
      right. exists v. rewrite Hf. auto.
    + exists t, [Log ERROR (name spec)]. split; [reflexivity|]. split; [auto|].
      right. exists v. rewrite Hf. auto.
  - exists [], []. auto.
  - exists [], [Log ERROR (name spec)]. auto.
Qed.

Lemma holds_instrument_false (spec : MetricSpec) :
  holds_instrument spec = false -> instruments_of spec = [].
Proof. unfold holds_instrument. destruct (instruments_of spec); congruence. Qed.

Lemma holds_instrument_true (spec : MetricSpec) :
  holds_instrument spec = true -> instruments_of spec <> [].
Proof. unfold holds_instrument. destruct (instruments_of spec); congruence. Qed.

Lemma record_spec_counts (spec : MetricSpec) (d : gmap string pyval) :
  count is_value_call (fst (record_spec spec d))
    = (if holds_instrument spec then 1%nat else 0%nat) /\
  (count is_instrument_call (fst (record_spec spec d))
   <= length (instruments_of spec))%nat /\
  count is_create (fst (record_spec spec d)) = 0%nat.
Proof.
  destruct (holds_instrument spec) eqn:Hh.
  - apply holds_instrument_true in Hh.
    destruct (record_spec_shape spec d Hh) as (rest & tail & -> & Htail & Hrest).
    assert (Hrest' :
      count is_value_call rest = 0%nat /\
      (count is_instrument_call rest <= length (instruments_of spec))%nat /\
      count is_create rest = 0%nat).
    { destruct Hrest as [->|(v & _ & ->)]; [unfold count; simpl; lia|].
      destruct (deliveries_events spec v (instruments_of spec)) as [Hall Hcnt].
      cbv zeta in Hall, Hcnt. split; [|split; [exact Hcnt|]]; clear Hcnt.
      - unfold count. induction Hall as [|ev t Hev _ IH]; [reflexivity|].
        destruct Hev as [->|(i & _ & [[_ ->]|[_ ->]])]; simpl; exact IH.
      - unfold count. induction Hall as [|ev t Hev _ IH]; [reflexivity|].
        destruct Hev as [->|(i & _ & [[_ ->]|[_ ->]])]; simpl; exact IH. }
    destruct Hrest' as (H1 & H2 & H3).
    change (CallValueFn (name spec) :: rest ++ tail)
      with ([CallValueFn (name spec)] ++ rest ++ tail).
    rewrite !count_app, H1, H3.
    destruct Htail as [-> | ->]; unfold count in *; simpl; lia.
  - apply holds_instrument_false in Hh.
    unfold record_spec. rewrite record_body_skips by exact Hh.
    unfold count. simpl. lia.
Qed.

(** X11.  During one [record] the value function of a spec is called once
    if the spec holds an instrument and not at all otherwise, so also once
    for a spec that feeds both targets; there is at most one instrument call
    per filled slot, counted over all specs (an instrument that fills two
    slots can so be called twice); and [record] never calls a meter
    factory. *)
Theorem value_fn_called_once (self : TelemetryRegistry)
    (d : gmap string pyval) :
  count is_value_call (fst (record self d))
    = length (List.filter holds_instrument (_specs self)) /\
  (count is_instrument_call (fst (record self d))
   <= length (flat_map instruments_of (_specs self)))%nat /\
  count is_create (fst (record self d)) = 0%nat.
Proof.
  unfold record. rewrite record_loop. cbn [fst].
  rewrite !count_concat, !map_map.
  induction (_specs self) as [|spec specs IH]; simpl; [lia|].
  destruct (record_spec_counts spec d) as (H1 & H2 & H3).
  destruct IH as (IH1 & IH2 & IH3).
  rewrite H1, H3, length_app.
  destruct (holds_instrument spec); simpl; lia.
Qed.

(** X12.  A failure of the business instrument silences the OTEL one for
    that frame: when a spec holds both instruments and the call that hands
    the value to the business instrument raises, the iteration consists of
    the call of the value function, that one instrument call and an error
    log record; the OTEL instrument is not called. *)
Theorem business_failure_skips_otel (spec : MetricSpec) (d : gmap string pyval)
    (ol otel : Instrument) (v : R) (e : exn) :
  _otel_inst spec = Some (Some ol, Some otel) ->
  value_fn spec d = Normal (Some v) ->
  (instrument spec = "counter" ->
   inst_add ol v = Raised e ->
   record_spec spec d
     = ([CallValueFn (name spec); Add (inst_id ol) v; Log ERROR (name spec)],
        Normal tt)) /\
  (instrument spec = "histogram" ->
   inst_record ol v = Raised e ->
   record_spec spec d
     = ([CallValueFn (name spec); Record_ (inst_id ol) v;
         Log ERROR (name spec)],
        Normal tt)).
Proof.
  intros Hslots Hv.
  split; intros Hk Hraise;
    unfold record_spec, record_body, _record_to_instrument;
    rewrite Hslots, Hv, Hk; simpl; rewrite Hraise; reflexivity.
Qed.

Lemma business_failure_skips_otel_witness :
  let ol := {| inst_id := 0%nat;
               inst_add := fun _ => Raised (RuntimeError "exporter down");
               inst_record := fun _ => Normal tt |} in
  let spec := set_otel_inst dual_counter
                (Some (Some ol, Some (quiet_instrument 10))) in
  record_spec spec demo_data
    = ([CallValueFn "dual_counter"; Add 0 1%R; Log ERROR "dual_counter"],
       Normal tt).
Proof.
  intros ol spec.
  apply (proj1 (business_failure_skips_otel spec demo_data ol
                  (quiet_instrument 10) 1%R (RuntimeError "exporter down")
                  eq_refl eq_refl)); reflexivity.
Defined.

(** X13.  [record] only calls instruments that its specs hold, in the way
    that fits the spec, and only with what the value function returned for
    this frame: every [add] in the trace is on an instrument of a counter
    spec whose value function returned that amount, and every [record] is on
    an instrument of a histogram spec whose value function returned that
    amount.  Instruments of gauge specs are never called. *)
Theorem instrument_calls_justified (self : TelemetryRegistry)
    (d : gmap string pyval) (ev : event) :
  In ev (fst (record self d)) ->
  is_instrument_call ev = true ->
  exists (spec : MetricSpec) (i : Instrument) (v : R),
    In spec (_specs self) /\
    In i (instruments_of spec) /\
    value_fn spec d = Normal (Some v) /\
    ((instrument spec = "counter" /\ ev = Add (inst_id i) v) \/
     (instrument spec = "histogram" /\ ev = Record_ (inst_id i) v)).
Proof.
  intros Hin Hcall. unfold record in Hin. rewrite record_loop in Hin.
  cbn [fst] in Hin. apply in_concat in Hin as (t & Ht & Hev).
  apply in_map_iff in Ht as (spec & <- & Hspec).
  destruct (instruments_of spec) as [|i0 rest0] eqn:Hinst.
  { unfold record_spec in Hev. rewrite record_body_skips in Hev by exact Hinst.
    destruct Hev. }
  assert (Hne : instruments_of spec <> []) by (rewrite Hinst; discriminate).
  destruct (record_spec_shape spec d Hne) as (rest & tail & Heq & Htail & Hrest).
  rewrite Heq in Hev. destruct Hev as [<-|Hev]; [discriminate|].
  apply in_app_or in Hev as [Hev|Hev].
  - destruct Hrest as [->|(v & Hv & ->)]; [destruct Hev|].
    destruct (deliveries_events spec v (instruments_of spec)) as [Hall _].
    cbv zeta in Hall. rewrite List.Forall_forall in Hall.
    destruct (Hall ev Hev) as [->|(i & Hi & Hkind)]; [discriminate|].
    exists spec, i, v. auto.
  - destruct Htail as [-> | ->]; [destruct Hev|].
    destruct Hev as [<-|[]]. discriminate.
Qed.

Lemma instrument_calls_justified_witness :
  exists (spec : MetricSpec) (i : Instrument) (v : R),
    In spec (_specs test_registry) /\
    In i (instruments_of spec) /\
    value_fn spec demo_data = Normal (Some v) /\
    ((instrument spec = "counter" /\ Record_ 1 3%R = Add (inst_id i) v) \/
     (instrument spec = "histogram" /\ Record_ 1 3%R = Record_ (inst_id i) v)).
Proof.
  apply (instrument_calls_justified test_registry demo_data (Record_ 1 3%R)).
  - simpl. right. right. right. right. left. reflexivity.
  - reflexivity.
Defined.

End RecordingMore.

(** ** More on the allowlist *)

Section StringFacts.

Lemma split_nonempty (sep : ascii) (s : string) : split sep s <> [].
Proof.
  destruct s as [|c s]; simpl; [discriminate|].
  destruct (Ascii.eqb c sep); [discriminate|].
  destruct (split sep s); discriminate.
Qed.

(** Splitting what was joined with the separator. *)
Lemma split_append (sep : ascii) (a b : string) :
  split sep (a ++ String sep b)%string = split sep a ++ split sep b.
Proof.
  induction a as [|c a IH]; simpl.
  - rewrite Ascii.eqb_refl. reflexivity.
  - rewrite IH. destruct (Ascii.eqb c sep); [reflexivity|].
    pose proof (split_nonempty sep a) as Hne.
    destruct (split sep a) as [|p ps]; [congruence|reflexivity].
Qed.

(** The pieces of a split carry exactly the characters of the string that
    are not the separator. *)
Lemma split_chars (sep : ascii) (s : string) (c : ascii) :
  (exists p : string, In p (split sep s) /\ In c (list_ascii_of_string p))
  <-> In c (list_ascii_of_string s) /\ c <> sep.
Proof.
  induction s as [|x s IH]; simpl.
  - split; [intros (p & [<-|[]] & [])|intros [[] _]].
  - destruct (Ascii.eqb_spec x sep) as [->|Hx].
    + split.
      * intros (p & [<-|Hp] & Hc); [destruct Hc|].
        destruct (proj1 IH (ex_intro _ p (conj Hp Hc))) as [H1 H2].
        split; [right; exact H1|exact H2].
      * intros [[Heq|Hc] Hne]; [congruence|].
        destruct (proj2 IH (conj Hc Hne)) as (p & Hp & Hcp).
        exists p. split; [right; exact Hp|exact Hcp].
    + pose proof (split_nonempty sep s) as Hne.
      destruct (split sep s) as [|q qs]; [congruence|]. split.
      * intros (p & [<-|Hp] & Hc).
        -- simpl in Hc. destruct Hc as [<-|Hc]; [split; [left; reflexivity|exact Hx]|].
           destruct (proj1 IH (ex_intro _ q (conj (or_introl eq_refl) Hc)))
             as [H1 H2].
           split; [right; exact H1|exact H2].
        -- destruct (proj1 IH (ex_intro _ p (conj (or_intror Hp) Hc)))
             as [H1 H2].
           split; [right; exact H1|exact H2].
      * intros [[<-|Hc] Hcs].
        -- exists (String x q). split; [left; reflexivity|left; reflexivity].
        -- destruct (proj2 IH (conj Hc Hcs)) as (p & [<-|Hp] & Hcp).
           ++ exists (String x q). split; [left; reflexivity|right; exact Hcp].
           ++ exists p. split; [right; exact Hp|exact Hcp].
Qed.

Lemma lstrip_empty_iff (s : string) :
  lstrip s = "" <-> Forall (fun c => isspace c = true) (list_ascii_of_string s).
Proof.
  induction s as [|c s IH]; simpl; [split; [constructor|reflexivity]|].
  destruct (isspace c) eqn:Hc.
  - rewrite IH. split; [intros H; constructor; assumption|].
    intros H. inversion H. assumption.
  - split; [discriminate|]. intros H. inversion H. congruence.
Qed.

Lemma rstrip_empty_iff (s : string) :
  rstrip s = "" <-> Forall (fun c => isspace c = true) (list_ascii_of_string s).
Proof.
  induction s as [|c s IH]; simpl; [split; [constructor|reflexivity]|].
  destruct (rstrip s) as [|r rs] eqn:Hr.
  - destruct (isspace c) eqn:Hc.
    + split; [intros _; constructor; [exact Hc|apply IH; reflexivity]|reflexivity].
    + split; [discriminate|]. intros H. inversion H. congruence.
  - split; [discriminate|]. intros H. inversion H as [|? ? _ Hs].
    apply IH in Hs. discriminate.
Qed.

(** What [lstrip] leaves has the characters of the string, minus leading
    white space. *)
Lemma lstrip_chars (s : string) :
  exists pre : list ascii,
    list_ascii_of_string s = pre ++ list_ascii_of_string (lstrip s) /\
    Forall (fun c => isspace c = true) pre.
Proof.
  induction s as [|c s (pre & Hpre & Hsp)]; simpl.
  - exists []. split; [reflexivity|constructor].
  - destruct (isspace c) eqn:Hc.
    + exists (c :: pre). rewrite Hpre. split; [reflexivity|constructor; assumption].
    + exists []. split; [reflexivity|constructor].
Qed.

Lemma rstrip_chars (s : string) :
  exists suf : list ascii,
    list_ascii_of_string s = list_ascii_of_string (rstrip s) ++ suf /\
    Forall (fun c => isspace c = true) suf.
Proof.
  induction s as [|c s (suf & Hsuf & Hsp)]; simpl.
  - exists []. split; [reflexivity|constructor].
  - destruct (rstrip s) as [|r rs] eqn:Hr.
    + simpl in Hsuf. destruct (isspace c) eqn:Hc.
      * exists (c :: suf). rewrite Hsuf. split; [reflexivity|constructor; assumption].
      * exists suf. rewrite Hsuf. split; [reflexivity|assumption].
    + exists suf. simpl. rewrite Hsuf. split; [reflexivity|assumption].
Qed.

Lemma strip_empty_iff (s : string) :
  strip s = "" <-> Forall (fun c => isspace c = true) (list_ascii_of_string s).
Proof.
  unfold strip. rewrite rstrip_empty_iff.
  destruct (lstrip_chars s) as (pre & Hpre & Hsp). rewrite Hpre. split.
  - intros H. apply Forall_app. split; assumption.
  - intros H. apply Forall_app in H. tauto.
Qed.

(** The characters of [strip s] are characters of [s]. *)
Lemma strip_chars (s : string) (c : ascii) :
  In c (list_ascii_of_string (strip s)) -> In c (list_ascii_of_string s).
Proof.
  unfold strip. intros H.
  destruct (lstrip_chars s) as (pre & -> & _).
  destruct (rstrip_chars (lstrip s)) as (suf & -> & _).
  apply in_or_app. right. apply in_or_app. left. exact H.
Qed.

Lemma rstrip_idempotent (s : string) : rstrip (rstrip s) = rstrip s.
Proof.
  induction s as [|c s IH]; simpl; [reflexivity|].
  destruct (rstrip s) as [|r rs] eqn:Hr.
  - destruct (isspace c) eqn:Hc; simpl; [reflexivity|]. rewrite Hc. reflexivity.
  - simpl in IH |- *. rewrite IH. reflexivity.
Qed.

Lemma lstrip_head (s : string) :
  lstrip s = "" \/ exists c r, lstrip s = String c r /\ isspace c = false.
Proof.
  induction s as [|c s IH]; simpl; [auto|].
  destruct (isspace c) eqn:Hc; [exact IH|]. right. eauto.
Qed.

Lemma rstrip_head (c : ascii) (s : string) :
  isspace c = false -> exists r, rstrip (String c s) = String c r.
Proof.
  intros Hc. simpl. destruct (rstrip s); [rewrite Hc|]; eauto.
Qed.

(** Stripping twice is stripping once: what [strip] returns has no white
    space left at either end. *)
Lemma strip_idempotent (s : string) : strip (strip s) = strip s.
Proof.
  unfold strip.
  destruct (lstrip_head s) as [-> | (c & r & -> & Hc)]; [reflexivity|].
  destruct (rstrip_head c r Hc) as (r' & Hr). rewrite Hr.
  simpl lstrip. rewrite Hc. rewrite <- Hr. apply rstrip_idempotent.
Qed.

End StringFacts.

Section AllowlistMore.
Import Config Statements Worlds.

Lemma parse_env_join (a b : string) :
  parse_env (a ++ String "," b)%string = parse_env a ∪ parse_env b.
Proof.
  unfold parse_env. rewrite split_append, filter_app, map_app.
  apply list_to_set_app_L.
Qed.

(** X14.  The allowlist read from [OF_SAFE_METRICS] does not depend on the
    order of the entries or on repetitions: joining two lists with a comma
    gives the union of their allowlists, in either order, and joining a list
    with itself gives the same allowlist. *)
Theorem allowlist_env_is_a_set (a b : string) :
  parse_env (a ++ String "," b)%string = parse_env a ∪ parse_env b /\
  parse_env (a ++ String "," b)%string = parse_env (b ++ String "," a)%string /\
  parse_env (a ++ String "," a)%string = parse_env a.
Proof.
  rewrite !parse_env_join. split; [reflexivity|].
  split; [apply (comm_L (∪))|apply (idemp_L (∪))].
Qed.

(** X15.  Every name the environment contributes to the allowlist is a
    non-empty string without a comma and without white space at either end
    (stripping it again changes nothing). *)
Theorem allowlist_env_entries_clean (w : World) (a : atom) :
  a ∈ read_env_allowlist w ->
  exists s : string,
    a = AStr s /\ s <> "" /\ strip s = s /\
    ~ In ","%char (list_ascii_of_string s).
Proof.
  unfold read_env_allowlist.
  destruct (getenv w "OF_SAFE_METRICS") as [env|]; [|intros H; set_solver].
  destruct (str_truthy env); [|intros H; set_solver].
  intros Ha. apply parse_env_elem in Ha as (entry & Hin & Hne & ->).
  exists (strip entry). split; [reflexivity|]. split; [exact Hne|].
  split; [apply strip_idempotent|].
  intros Hc. apply strip_chars in Hc.
  destruct (proj1 (split_chars "," env ",")
              (ex_intro _ entry (conj Hin Hc))) as [_ Habs].
  congruence.
Qed.

Lemma allowlist_env_entries_clean_witness :
  exists s : string,
    AStr "metric2" = AStr s /\ s <> "" /\ strip s = s /\
    ~ In ","%char (list_ascii_of_string s).
Proof.
  apply (allowlist_env_entries_clean (env_world "metric1, metric2 , metric3")).
  apply parse_env_elem. exists " metric2 ".
  split; [right; left; reflexivity|]. split; [discriminate|reflexivity].
Defined.

Lemma parse_env_empty_iff (env : string) :
  parse_env env = ∅ <->
  Forall (fun c => c = ","%char \/ isspace c = true) (list_ascii_of_string env).
Proof.
  split.
  - intros Hempty. apply List.Forall_forall. intros c Hc.
    destruct (Ascii.eqb_spec c ",") as [->|Hsep]; [left; reflexivity|].
    right. destruct (isspace c) eqn:Hsp; [reflexivity|exfalso].
    destruct (proj2 (split_chars "," env c) (conj Hc Hsep)) as (p & Hp & Hcp).
    assert (Hne : strip p <> "").
    { intros Hs. apply strip_empty_iff in Hs.
      rewrite List.Forall_forall in Hs. specialize (Hs c Hcp). congruence. }
    assert (Hin : AStr (strip p) ∈ parse_env env)
      by (apply parse_env_elem; eauto).
    rewrite Hempty in Hin. set_solver.
  - intros Hall. apply set_eq. intros a. split; [|set_solver].
    intros Ha. apply parse_env_elem in Ha as (entry & Hin & Hne & _).
    exfalso. apply Hne. apply strip_empty_iff.
    apply List.Forall_forall. intros c Hc.
    destruct (proj1 (split_chars "," env c) (ex_intro _ entry (conj Hin Hc)))
      as [Hcs Hsep].
    rewrite List.Forall_forall in Hall.
    destruct (Hall c Hcs) as [?|?]; [congruence|assumption].
Qed.

(** X16.  The environment contributes nothing to the allowlist exactly when
    [OF_SAFE_METRICS] is unset or consists of commas and white space only
    (the empty string included). *)
Theorem allowlist_env_empty_iff (w : World) :
  read_env_allowlist w = ∅ <->
  match getenv w "OF_SAFE_METRICS" with
  | None => True
  | Some env =>
      Forall (fun c => c = ","%char \/ isspace c = true)
             (list_ascii_of_string env)
  end.
Proof.
  unfold read_env_allowlist.
  destruct (getenv w "OF_SAFE_METRICS") as [env|]; [|tauto].
  destruct env as [|c env]; [simpl; split; [constructor|reflexivity]|].
  cbn [str_truthy]. apply parse_env_empty_iff.
Qed.

Lemma hashables_atoms (items : list atom) :
  hashables (map YAtom items) = Normal items.
Proof.
  induction items as [|a items IH]; simpl; [reflexivity|].
  rewrite IH. reflexivity.
Qed.

(** X17.  Names listed in the file are taken as they are: when the file
    loads to a mapping whose [safe_metrics] is a list of scalars, the
    allowlist is exactly the set of these scalars, with no stripping and no
    splitting at commas, and nothing is printed. *)
Theorem allowlist_file_verbatim (w : World) (path f : string)
    (bindings : list (atom * yaml)) (items : list atom) :
  getenv w "OF_SAFE_METRICS_FILE" = Some path ->
  path <> "" ->
  open_read w path = Normal f ->
  yaml_safe_load w f = Normal (YMap bindings) ->
  dict_lookup bindings (AStr "safe_metrics") = Some (YSeq (map YAtom items)) ->
  read_allowlist w = ([], list_to_set items) /\
  forall a : atom, a ∈ snd (read_allowlist w) <-> In a items.
Proof.
  intros Hf Hp Ho Hy Hl.
  assert (Hr : read_allowlist w = ([], list_to_set items)).
  { unfold read_allowlist. rewrite Hf.
    apply str_truthy_iff in Hp. rewrite Hp.
    unfold read_file_allowlist, and_then. rewrite Ho, Hy. simpl.
    rewrite Hl. simpl. rewrite hashables_atoms. reflexivity. }
  split; [exact Hr|]. intros a. rewrite Hr. simpl.
  rewrite elem_of_list_to_set. apply list_elem_of_In.
Qed.

Lemma allowlist_file_verbatim_witness :
  read_allowlist verbatim_world
    = ([], list_to_set [AStr " fps "; AStr "cpu,mem"]) /\
  forall a : atom,
    a ∈ snd (read_allowlist verbatim_world)
    <-> In a [AStr " fps "; AStr "cpu,mem"].
Proof.
  apply (allowlist_file_verbatim verbatim_world "/etc/openfilter/safe.yaml" ""
           [(AStr "safe_metrics",
             YSeq (map YAtom [AStr " fps "; AStr "cpu,mem"]))]);
    [reflexivity|discriminate|reflexivity|reflexivity|reflexivity].
Defined.

Lemma chars_single (s : string) :
  In s (chars s) <-> String.length s = 1%nat.
Proof.
  split.
  - assert (H : forall t x, In x (chars t) -> String.length x = 1%nat).
    { induction t as [|c t IH]; simpl; [intros x []|].
      intros x [<-|Hx]; [reflexivity|auto]. }
    apply H.
  - destruct s as [|c [|c' s]]; simpl; try discriminate.
    intros _. left. reflexivity.
Qed.

(** X18.  A [safe_metrics] entry that is a single string instead of a list
    is taken apart into its characters: the allowlist then holds the
    one-character strings of that string, so the name itself is allowed only
    if it is one character long. *)
Theorem allowlist_file_scalar (w : World) (path f name : string)
    (bindings : list (atom * yaml)) :
  getenv w "OF_SAFE_METRICS_FILE" = Some path ->
  path <> "" ->
  open_read w path = Normal f ->
  yaml_safe_load w f = Normal (YMap bindings) ->
  dict_lookup bindings (AStr "safe_metrics") = Some (YAtom (AStr name)) ->
  (forall a : atom,
     a ∈ snd (read_allowlist w)
     <-> exists c : ascii,
           In c (list_ascii_of_string name) /\ a = AStr (String c "")) /\
  (AStr name ∈ snd (read_allowlist w) <-> String.length name = 1%nat).
Proof.
  intros Hf Hp Ho Hy Hl.
  assert (Hr : snd (read_allowlist w) = list_to_set (map AStr (chars name))).
  { unfold read_allowlist. rewrite Hf.
    apply str_truthy_iff in Hp. rewrite Hp.
    unfold read_file_allowlist, and_then. rewrite Ho, Hy. simpl.
    rewrite Hl. reflexivity. }
  assert (Hchars : forall x, In x (chars name) <->
            exists c, In c (list_ascii_of_string name) /\ x = String c "").
  { clear. induction name as [|c t IH]; simpl; intros x.
    - split; [intros []|intros (c & [] & _)].
    - rewrite IH. split.
      + intros [<-|(c' & Hc' & ->)]; eauto.
      + intros (c' & [<-|Hc'] & ->); eauto. }
  rewrite Hr. split.
  - intros a. rewrite elem_of_list_to_set, list_elem_of_In, in_map_iff. split.
    + intros (x & <- & Hx). apply Hchars in Hx as (c & Hc & ->). eauto.
    + intros (c & Hc & ->). exists (String c ""). split; [reflexivity|].
      apply Hchars. eauto.
  - rewrite elem_of_list_to_set, list_elem_of_In, in_map_iff.
    rewrite <- chars_single. split.
    + intros (x & [= ->] & Hx). exact Hx.
    + intros Hx. eauto.
Qed.

Lemma allowlist_file_scalar_witness :
  (forall a : atom,
     a ∈ snd (read_allowlist scalar_world)
     <-> exists c : ascii,
           In c (list_ascii_of_string "fps") /\ a = AStr (String c "")) /\
  (AStr "fps" ∈ snd (read_allowlist scalar_world)
   <-> String.length "fps" = 1%nat).
Proof.
  apply (allowlist_file_scalar scalar_world "/etc/openfilter/safe.yaml" ""
           "fps" [(AStr "safe_metrics", YAtom (AStr "fps"))]);
    [reflexivity|discriminate|reflexivity|reflexivity|reflexivity].
Defined.

End AllowlistMore.

(** ** The exporter settings *)

Section ExporterSettings.
Import Config ExporterConfig Statements Worlds.

Lemma truthy_map (y : yaml) :
  truthy y = true ->
  (exists bindings, y = YMap bindings /\ bindings <> []) \/
  (forall key default, get y key default = Raised AttributeError).
Proof.
  destruct y as [a|items|bindings]; intros Ht.
  - right. reflexivity.
  - right. reflexivity.
  - left. exists bindings. split; [reflexivity|].
    destruct bindings; [discriminate|discriminate].
Qed.

Lemma openlineage_section_some (w : World) (path : string)
    (r : gmap string yaml) :
  openlineage_section w path = Normal (Some r) <->
  exists (f : string) (bindings section : list (atom * yaml)),
    open_read w path = Normal f /\
    yaml_safe_load w f = Normal (YMap bindings) /\
    dict_lookup bindings (AStr "openlineage") = Some (YMap section) /\
    section <> [] /\
    r = <["url" := default (YAtom ANone) (dict_lookup section (AStr "url"))]>
        (<["api_key" :=
             default (YAtom ANone) (dict_lookup section (AStr "api_key"))]>
         (<["heartbeat_interval" :=
              default (YAtom (AInt 10))
                      (dict_lookup section (AStr "heartbeat_interval"))]> ∅)).
Proof.
  unfold openlineage_section, and_then. split.
  - destruct (open_read w path) as [f|e]; [|discriminate].
    destruct (yaml_safe_load w f) as [[a|items|bindings]|e] eqn:Hy;
      try discriminate.
    unfold get at 1.
    destruct (dict_lookup bindings (AStr "openlineage")) as [section|] eqn:Hl;
      [|discriminate].
    destruct (truthy section) eqn:Ht; [|discriminate].
    destruct (truthy_map section Ht) as [(sec & -> & Hne)|Hraise].
    + simpl. intros [= <-]. exists f, bindings, sec. repeat split; auto.
    + rewrite Hraise. discriminate.
  - intros (f & bindings & section & -> & -> & Hl & Hne & ->).
    unfold get at 1. rewrite Hl.
    destruct section as [|b section]; [congruence|]. reflexivity.
Qed.

(** X19.  [read_openlineage_config()] returns a dictionary exactly when
    [OF_SAFE_METRICS_FILE] names a file that opens, parses to a mapping and
    has a non-empty mapping under [openlineage]; the dictionary then has the
    three keys [url], [api_key] and [heartbeat_interval], with [None] for a
    missing URL or key and 10 for a missing interval.  In every other case,
    errors included, it returns [None]. *)
Theorem openlineage_config_returned (w : World) (r : gmap string yaml) :
  (snd (read_openlineage_config w) = Some r <->
   exists (path f : string) (bindings section : list (atom * yaml)),
     getenv w "OF_SAFE_METRICS_FILE" = Some path /\
     path <> "" /\
     open_read w path = Normal f /\
     yaml_safe_load w f = Normal (YMap bindings) /\
     dict_lookup bindings (AStr "openlineage") = Some (YMap section) /\
     section <> [] /\
     r = <["url" := default (YAtom ANone) (dict_lookup section (AStr "url"))]>
         (<["api_key" :=
              default (YAtom ANone) (dict_lookup section (AStr "api_key"))]>
          (<["heartbeat_interval" :=
               default (YAtom (AInt 10))
                       (dict_lookup section (AStr "heartbeat_interval"))]> ∅))) /\
  (snd (read_openlineage_config w) = Some r ->
   dom r = {[ "url"; "api_key"; "heartbeat_interval" ]}).
Proof.
  assert (Hiff : snd (read_openlineage_config w) = Some r <->
            exists path, getenv w "OF_SAFE_METRICS_FILE" = Some path /\
                         path <> "" /\
                         openlineage_section w path = Normal (Some r)).
  { unfold read_openlineage_config.
    destruct (getenv w "OF_SAFE_METRICS_FILE") as [path|].
    - destruct (str_truthy path) eqn:Hp.
      + apply str_truthy_iff in Hp.
        destruct (openlineage_section w path) as [[r'|]|e] eqn:Hs; simpl;
          split; try discriminate.
        * intros [= ->]. exists path. repeat split; auto.
        * intros (p' & [= <-] & _ & Hs'). congruence.
        * intros (p' & [= <-] & _ & Hs'). congruence.
        * intros (p' & [= <-] & _ & Hs'). congruence.
      + simpl. split; [discriminate|].
        intros (p' & [= <-] & Hne & _).
        destruct path; [congruence|discriminate].
    - simpl. split; [discriminate|]. intros (p' & [=] & _). }
  split.
  - rewrite Hiff. split.
    + intros (path & Hf & Hp & Hs).
      apply openlineage_section_some in Hs
        as (f & bindings & section & Ho & Hy & Hl & Hne & ->).
      exists path, f, bindings, section. repeat split; auto.
    + intros (path & f & bindings & section & Hf & Hp & Ho & Hy & Hl & Hne & ->).
      exists path. split; [exact Hf|]. split; [exact Hp|].
      apply openlineage_section_some. exists f, bindings, section.
      repeat split; auto.
  - intros Hs. apply Hiff in Hs as (path & _ & _ & Hs).
    apply openlineage_section_some in Hs as (_ & _ & section & _ & _ & _ & _ & ->).
    rewrite !dom_insert_L, dom_empty_L. set_solver.
Qed.

Example openlineage_config_example :
  read_openlineage_config lineage_world
    = ([], Some (<["url" := YAtom (AStr "http://marquez:5000")]>
                 (<["api_key" := YAtom ANone]>
                  (<["heartbeat_interval" := YAtom (AInt 10)]> ∅)))).
Proof. reflexivity. Qed.

Lemma otel_section_used (w : World) (path f : string)
    (bindings section : list (atom * yaml)) :
  open_read w path = Normal f ->
  yaml_safe_load w f = Normal (YMap bindings) ->
  dict_lookup bindings (AStr "opentelemetry") = Some (YMap section) ->
  section <> [] ->
  otel_section w path
    = Normal
        (Some
           (<["endpoint" :=
                FromYaml
                  (py_or (default (YAtom ANone)
                                  (dict_lookup section (AStr "endpoint")))
                         (of_env (getenv w "OTEL_EXPORTER_OTLP_ENDPOINT")))]>
            (<["headers" :=
                 FromYaml
                   (py_or (default (YAtom ANone)
                                   (dict_lookup section (AStr "headers")))
                          (of_env (getenv w "OTEL_EXPORTER_OTLP_HEADERS")))]>
             (<["protocol" :=
                  FromYaml (default (YAtom (AStr "grpc"))
                                    (dict_lookup section (AStr "protocol")))]>
              (<["export_interval" :=
                   FromYaml (default (YAtom (AInt 30))
                                     (dict_lookup section
                                                  (AStr "export_interval")))]>
               (<["enabled" :=
                    match dict_lookup section (AStr "enabled") with
                    | Some v => FromYaml v
                    | None => PyBool true
                    end]> ∅)))))).
Proof.
  intros Ho Hy Hl Hne. unfold otel_section, and_then. rewrite Ho, Hy.
  unfold get at 1. rewrite Hl.
  destruct section as [|b section]; [congruence|]. reflexivity.
Qed.

(** X20.  When the file has a non-empty [opentelemetry] mapping,
    [read_otel_config()] answers from the file: the variables
    [OTEL_EXPORTER_OTLP_PROTOCOL], [OTEL_EXPORT_INTERVAL] and [OTEL_ENABLED]
    are not consulted (so an interval there that is no number does no
    harm), and protocol, interval and the enabled flag are the file's, or
    ["grpc"], 30 and [True] where the file is silent. *)
Theorem otel_file_section_wins (w w' : World) (path f : string)
    (bindings section : list (atom * yaml)) :
  getenv w "OF_SAFE_METRICS_FILE" = Some path ->
  path <> "" ->
  open_read w path = Normal f ->
  yaml_safe_load w f = Normal (YMap bindings) ->
  dict_lookup bindings (AStr "opentelemetry") = Some (YMap section) ->
  section <> [] ->
  differ_only_on ["OTEL_EXPORTER_OTLP_PROTOCOL"; "OTEL_EXPORT_INTERVAL";
                  "OTEL_ENABLED"] w w' ->
  read_otel_config w' = read_otel_config w /\
  exists r : gmap string value,
    read_otel_config w = ([], Normal (Some r)) /\
    r !! "protocol"
      = Some (FromYaml (default (YAtom (AStr "grpc"))
                                (dict_lookup section (AStr "protocol")))) /\
    r !! "export_interval"
      = Some (FromYaml (default (YAtom (AInt 30))
                                (dict_lookup section (AStr "export_interval")))) /\
    r !! "enabled"
      = Some (match dict_lookup section (AStr "enabled") with
              | Some v => FromYaml v
              | None => PyBool true
              end).
Proof.
  intros Hf Hp Ho Hy Hl Hne (Hopen & Hload & Henv).
  assert (Hsame : forall var,
            In var ["OF_SAFE_METRICS_FILE"; "OTEL_EXPORTER_OTLP_ENDPOINT";
                    "OTEL_EXPORTER_OTLP_HEADERS"] ->
            getenv w' var = getenv w var).
  { intros var Hin. apply Henv. simpl in Hin |- *.
    intuition (subst; discriminate). }
  assert (Hw : read_otel_config w
               = ([], otel_section w path)).
  { unfold read_otel_config. rewrite Hf.
    apply str_truthy_iff in Hp. rewrite Hp.
    rewrite (otel_section_used w path f bindings section) by assumption.
    reflexivity. }
  assert (Hw' : read_otel_config w'
                = ([], otel_section w' path)).
  { unfold read_otel_config. rewrite (Hsame "OF_SAFE_METRICS_FILE"), Hf
      by (simpl; auto).
    apply str_truthy_iff in Hp. rewrite Hp.
    rewrite (otel_section_used w' path f bindings section)
      by (rewrite ?Hopen, ?Hload; assumption).
    reflexivity. }
  split.
  - rewrite Hw, Hw'.
    rewrite (otel_section_used w path f bindings section) by assumption.
    rewrite (otel_section_used w' path f bindings section)
      by (rewrite ?Hopen, ?Hload; assumption).
    rewrite !Hsame by (simpl; auto). reflexivity.
  - rewrite Hw.
    rewrite (otel_section_used w path f bindings section) by assumption.
    eexists. split; [reflexivity|]. repeat split; reflexivity.
Qed.

Lemma otel_file_section_wins_witness :
  read_otel_config otel_file_world_reset = read_otel_config otel_file_world /\
  exists r : gmap string value,
    read_otel_config otel_file_world = ([], Normal (Some r)) /\
    r !! "protocol" = Some (FromYaml (YAtom (AStr "http"))) /\
    r !! "export_interval" = Some (FromYaml (YAtom (AInt 30))) /\
    r !! "enabled" = Some (PyBool true).
Proof.
  apply (otel_file_section_wins otel_file_world otel_file_world_reset
           "/etc/openfilter/safe.yaml" ""
           [(AStr "opentelemetry",
             YMap [(AStr "protocol", YAtom (AStr "http"))])]
           [(AStr "protocol", YAtom (AStr "http"))]);
    try reflexivity; try discriminate.
  split; [reflexivity|]. split; [reflexivity|].
  intros var Hvar. simpl in Hvar. unfold otel_file_world_reset, otel_file_world,
    world_with, env_of. simpl.
  rewrite !lookup_insert, lookup_empty.
  repeat case_decide; subst; try reflexivity; exfalso; tauto.
Defined.

Lemma otel_from_env_cases (w : World) :
  match getenv w "OTEL_EXPORTER_OTLP_ENDPOINT" with
  | Some (String _ _) =>
      match builtin_int w (default "30" (getenv w "OTEL_EXPORT_INTERVAL")) with
      | Normal _ => exists r, otel_from_env w = Normal (Some r)
      | Raised e => otel_from_env w = Raised e
      end
  | _ => otel_from_env w = Normal None
  end.
Proof.
  unfold otel_from_env.
  destruct (getenv w "OTEL_EXPORTER_OTLP_ENDPOINT") as [[|c endpoint]|];
    try reflexivity.
  cbn [str_truthy].
  destruct (builtin_int w (default "30" (getenv w "OTEL_EXPORT_INTERVAL")))
    as [z|e]; simpl; eauto.
Qed.

(** X21.  [read_otel_config()] can raise: [int(...)] of the interval is
    under no [try].  It raises exactly when the file does not supply the
    settings (no file named, or reading the [opentelemetry] section fails or
    finds it empty), [OTEL_EXPORTER_OTLP_ENDPOINT] is set and non-empty, and
    [int] raises on [OTEL_EXPORT_INTERVAL] (on ["30"] when it is unset); the
    exception is the one [int] raised.  Without a file section and without
    an endpoint it returns [None]. *)
Theorem otel_config_raises (w : World) :
  let from_file :=
    exists (path : string) (r : gmap string value),
      getenv w "OF_SAFE_METRICS_FILE" = Some path /\ path <> "" /\
      otel_section w path = Normal (Some r) in
  let endpoint_set :=
    exists endpoint : string,
      getenv w "OTEL_EXPORTER_OTLP_ENDPOINT" = Some endpoint /\
      endpoint <> "" in
  (forall e : exn,
     snd (read_otel_config w) = Raised e <->
     ~ from_file /\ endpoint_set /\
     builtin_int w (default "30" (getenv w "OTEL_EXPORT_INTERVAL"))
       = Raised e) /\
  (snd (read_otel_config w) = Normal None <->
   ~ from_file /\ ~ endpoint_set).
Proof.
  cbv zeta.
  assert (Hfile :
    (exists (path : string) (r : gmap string value),
       getenv w "OF_SAFE_METRICS_FILE" = Some path /\ path <> "" /\
       otel_section w path = Normal (Some r)) /\
    (exists r, snd (read_otel_config w) = Normal (Some r))
    \/
    ~ (exists (path : string) (r : gmap string value),
         getenv w "OF_SAFE_METRICS_FILE" = Some path /\ path <> "" /\
         otel_section w path = Normal (Some r)) /\
    snd (read_otel_config w) = otel_from_env w).
  { unfold read_otel_config.
    destruct (getenv w "OF_SAFE_METRICS_FILE") as [path|] eqn:Hf.
    - destruct (str_truthy path) eqn:Hp.
      + apply str_truthy_iff in Hp.
        destruct (otel_section w path) as [[r|]|e] eqn:Hs.
        * left. split; [exists path, r; auto|eauto].
        * right. split; [|reflexivity].
          intros (p' & r & [= <-] & _ & Hs'). congruence.
        * right. split; [|reflexivity].
          intros (p' & r & [= <-] & _ & Hs'). congruence.
      + right. split; [|reflexivity].
        intros (p' & r & [= <-] & Hne & _).
        destruct path; [congruence|discriminate].
    - right. split; [|reflexivity]. intros (p' & r & [=] & _). }
  pose proof (otel_from_env_cases w) as Henv.
  destruct Hfile as [[Hfrom (r & Hr)] | [Hnot Hr]]; rewrite Hr.
  - split.
    + intros e. split; [discriminate|tauto].
    + split; [discriminate|tauto].
  - destruct (getenv w "OTEL_EXPORTER_OTLP_ENDPOINT") as [[|c endpoint]|]
      eqn:Hend.
    + rewrite Henv. split.
      * intros e. split; [discriminate|].
        intros (_ & (ep & [= <-] & Hne) & _). congruence.
      * split; [|reflexivity]. intros _. split; [exact Hnot|].
        intros (ep & [= <-] & Hne). congruence.
    + destruct (builtin_int w (default "30" (getenv w "OTEL_EXPORT_INTERVAL")))
        as [z|e'] eqn:Hint.
      * destruct Henv as (r & ->). split.
        -- intros e. split; [discriminate|]. intros (_ & _ & [=]).
        -- split; [discriminate|]. intros [_ Hno]. exfalso. apply Hno.
           exists (String c endpoint). split; [reflexivity|discriminate].
      * rewrite Henv. split.
        -- intros e. split.
           ++ intros [= <-]. split; [exact Hnot|].
              split; [|reflexivity].
              exists (String c endpoint). split; [reflexivity|discriminate].
           ++ intros (_ & _ & [= <-]). reflexivity.
        -- split; [discriminate|]. intros [_ Hno]. exfalso. apply Hno.
           exists (String c endpoint). split; [reflexivity|discriminate].
    + rewrite Henv. split.
      * intros e. split; [discriminate|].
        intros (_ & (ep & [=] & _) & _).
      * split; [|reflexivity]. intros _. split; [exact Hnot|].
        intros (ep & [=] & _).
Qed.

Lemma otel_section_keys (w : World) (path : string) (r : gmap string value) :
  otel_section w path = Normal (Some r) ->
  dom r = {[ "endpoint"; "headers"; "protocol"; "export_interval"; "enabled" ]}.
Proof.
  unfold otel_section, and_then.
  destruct (open_read w path) as [f|e]; [|discriminate].
  destruct (yaml_safe_load w f) as [[a|items|bindings]|e]; try discriminate.
  unfold get at 1.
  destruct (dict_lookup bindings (AStr "opentelemetry")) as [section|];
    [|discriminate].
  destruct (truthy section) eqn:Ht; [|discriminate].
  destruct (truthy_map section Ht) as [(sec & -> & Hne)|Hraise].
  - simpl. intros [= <-]. rewrite !dom_insert_L, dom_empty_L. set_solver.
  - rewrite Hraise. discriminate.
Qed.

Lemma otel_from_env_keys (w : World) (r : gmap string value) :
  otel_from_env w = Normal (Some r) ->
  dom r = {[ "endpoint"; "headers"; "protocol"; "export_interval"; "enabled" ]} /\
  exists endpoint : string,
    endpoint <> "" /\ r !! "endpoint" = Some (FromYaml (YAtom (AStr endpoint))).
Proof.
  unfold otel_from_env, and_then.
  destruct (getenv w "OTEL_EXPORTER_OTLP_ENDPOINT") as [[|c endpoint]|];
    try discriminate.
  cbn [str_truthy].
  destruct (builtin_int w _) as [z|e]; [|discriminate].
  intros [= <-]. split.
  - rewrite !dom_insert_L, dom_empty_L. set_solver.
  - exists (String c endpoint). split; [discriminate|reflexivity].
Qed.

(** X22.  Whenever [read_otel_config()] returns a dictionary, from the file
    or from the environment, it has exactly the five keys [endpoint],
    [headers], [protocol], [export_interval] and [enabled]; and when no
    file is named, the endpoint in it is the non-empty string of
    [OTEL_EXPORTER_OTLP_ENDPOINT]. *)
Theorem otel_config_keys (w : World) (r : gmap string value) :
  snd (read_otel_config w) = Normal (Some r) ->
  dom r = {[ "endpoint"; "headers"; "protocol"; "export_interval"; "enabled" ]} /\
  (getenv w "OF_SAFE_METRICS_FILE" = None ->
   exists endpoint : string,
     getenv w "OTEL_EXPORTER_OTLP_ENDPOINT" = Some endpoint /\
     endpoint <> "" /\
     r !! "endpoint" = Some (FromYaml (YAtom (AStr endpoint)))).
Proof.
  unfold read_otel_config.
  destruct (getenv w "OF_SAFE_METRICS_FILE") as [path|] eqn:Hf.
  - assert (Hdom : snd (if str_truthy path
                        then match otel_section w path with
                             | Normal (Some r0) => ([], Normal (Some r0))
                             | Normal None => ([], otel_from_env w)
                             | Raised e => ([(path, e)], otel_from_env w)
                             end
                        else ([], otel_from_env w)) = Normal (Some r) ->
            dom r = {[ "endpoint"; "headers"; "protocol"; "export_interval";
                       "enabled" ]}).
    { destruct (str_truthy path).
      - destruct (otel_section w path) as [[r0|]|e] eqn:Hs; simpl.
        + intros [= <-]. eapply otel_section_keys; eassumption.
        + intros H. apply otel_from_env_keys in H. tauto.
        + intros H. apply otel_from_env_keys in H. tauto.
      - simpl. intros H. apply otel_from_env_keys in H. tauto. }
    intros H. split; [auto|discriminate].
  - simpl. intros H. split; [apply otel_from_env_keys in H; tauto|]. intros _.
    revert H. unfold otel_from_env, and_then.
    destruct (getenv w "OTEL_EXPORTER_OTLP_ENDPOINT") as [[|c endpoint]|];
      try discriminate.
    cbn [str_truthy]. destruct (builtin_int w _) as [z|e]; [|discriminate].
    intros [= <-]. exists (String c endpoint).
    split; [reflexivity|]. split; [discriminate|reflexivity].
Qed.

Lemma otel_config_keys_witness :
  exists r : gmap string value,
    snd (read_otel_config otel_file_world) = Normal (Some r) /\
    dom r = {[ "endpoint"; "headers"; "protocol"; "export_interval";
               "enabled" ]}.
Proof.
  eexists. split; [reflexivity|].
  apply (otel_config_keys otel_file_world). reflexivity.
Defined.

(** [py_int], the [int] of the sample worlds, on strings as the fallback
    meets them. *)
Example py_int_examples :
  py_int "30" = Normal 30 /\ py_int " 1_000 " = Normal 1000 /\
  py_int "-5" = Normal (-5) /\ py_int "+007" = Normal 7 /\
  py_int "" = Raised ValueError /\ py_int "30.0" = Raised ValueError /\
  py_int "0x1e" = Raised ValueError /\ py_int "5_" = Raised ValueError /\
  py_int "1__0" = Raised ValueError /\ py_int "- 5" = Raised ValueError.
Proof. repeat split; reflexivity. Qed.

Example otel_config_raises_example :
  read_otel_config otel_env_world = ([], Raised ValueError).
Proof. reflexivity. Qed.

End ExporterSettings.
